(** * roleHaven: the lantern hacking manager (managers/lanternHacking)

    A shallow embedding of the signal engine ([updateSignalValue]), the
    decay scheduler ([resetStations]), the challenge payload
    ([createHackData]) and the guess evaluation ([manipulateStation]).

    Conventions of the embedding.

    - JavaScript numbers that the code keeps integral (station ids, tries,
      signal values as stored, counts) are [Z].  The one fractional
      computation, [(signalThreshold - difference) * changePercentage] with
      [changePercentage = 0.2], is carried out over [Q]; [Math.ceil] is
      [Qceiling] and [Math.abs] is [Qabs].  [Binary64] evaluates the same
      expression in IEEE 754 doubles, and [binary64_agrees] shows that the
      value written is the same for every signal value from -1000 to 1000.
    - Strings are [string]; [Array.from] of a string is its list of
      characters and [toLowerCase] is the ASCII case folding.
    - A function taking [{ ..., callback }] becomes a function taking a
      continuation; an [Action] transforms the stores and yields the
      events it caused, in order.  An external operation (store access,
      authentication) answers as soon as it is called; when several are
      pending at once the model completes each before the next one is
      started.  The telemetry POST is sent when it is called; what comes
      of its response is described at [postRequest].
    - The store connector, the authenticator, the validator, the text
      tools and the configuration are not part of the manager: the stores
      are maps, the others are fields of [Env]. *)

From Stdlib Require Import ZArith QArith Qround Qabs Lia.
From Stdlib Require Import String Ascii List.
From Stdlib Require Import PrimFloat FloatOps SpecFloat Uint63.
From stdpp Require Import gmap strings list.

Import ListNotations.
Local Open Scope string_scope.
Local Open Scope Z_scope.
Local Open Scope list_scope.

(** ** JavaScript values sent back to the caller *)

#[local] Unset Elimination Schemes.
Inductive JsVal : Type :=
| JNum (n : Z)
| JStr (s : string)
| JBool (b : bool)
| JArr (items : list JsVal)
| JObj (fields : list (string * JsVal)).
#[local] Set Elimination Schemes.

(** [obj.key]: the value of the property [key], when the object has it. *)
Fixpoint lookupField (key : string) (fields : list (string * JsVal)) : option JsVal :=
  match fields with
  | [] => None
  | (k, v) :: rest => if String.eqb k key then Some v else lookupField key rest
  end.

Definition getField (key : string) (v : JsVal) : option JsVal :=
  match v with
  | JObj fields => lookupField key fields
  | _ => None
  end.

(** Does the property name [key] occur anywhere inside the value? *)
Fixpoint mentionsKey (key : string) (v : JsVal) : bool :=
  match v with
  | JNum _ | JStr _ | JBool _ => false
  | JArr items => existsb (mentionsKey key) items
  | JObj fields =>
      existsb (fun kv => String.eqb (fst kv) key || mentionsKey key (snd kv)) fields
  end.

(** ** Text helpers: [toLowerCase], [indexOf] *)

Definition lowerChar (c : ascii) : ascii :=
  let n := nat_of_ascii c in
  if ((65 <=? n)%nat && (n <=? 90)%nat)%bool then ascii_of_nat (n + 32) else c.

Definition toLowerCase (s : string) : string :=
  string_of_list_ascii (List.map lowerChar (list_ascii_of_string s)).

(** First position of [c] counted from [from], or [-1]. *)
Fixpoint indexOfFrom (from : Z) (c : ascii) (l : list ascii) : Z :=
  match l with
  | [] => -1
  | x :: rest => if Ascii.eqb x c then from else indexOfFrom (from + 1) c rest
  end.

(** [Array.prototype.indexOf] on an array of characters. *)
Definition arrayIndexOf (l : list ascii) (c : ascii) : Z := indexOfFrom 0 c l.

(** [String.prototype.indexOf] with a one-character argument. *)
Definition stringIndexOf (s : string) (c : ascii) : Z :=
  indexOfFrom 0 c (list_ascii_of_string s).

(** ** Errors (objects/error/GeneralError.js) *)

Inductive ErrorType : Type :=
| GENERAL | DATABASE | DOESNOTEXIST | EXTERNAL | ALREADYEXISTS | INCORRECT
| INVALIDCHARACTERS | INVALIDDATA | NOTALLOWED | NEEDSVERIFICATION | BANNED
| INSUFFICIENT | INTERNAL | EXPIRED.

Record GeneralError : Type := { errType : ErrorType; errName : string }.

Definition External (name : string) : GeneralError :=
  {| errType := EXTERNAL; errName := name |}.
Definition InvalidData (expected : string) : GeneralError :=
  {| errType := INVALIDDATA; errName := expected |}.
Definition DoesNotExist (name : string) : GeneralError :=
  {| errType := DOESNOTEXIST; errName := name |}.
Definition Database (name : string) : GeneralError :=
  {| errType := DATABASE; errName := name |}.

(** What a callback receives: [{ error }] or [{ data }]. *)
Record Reply : Type := { error : option GeneralError; data : option JsVal }.

Definition replyError (e : GeneralError) : Reply := {| error := Some e; data := None |}.
Definition replyData (d : JsVal) : Reply := {| error := None; data := Some d |}.

(** Answer of a store or of the authenticator. *)
Inductive Result (A : Type) : Type :=
| Failed (e : GeneralError)
| Answered (a : A).
Arguments Failed {A} e.
Arguments Answered {A} a.

(** ** Data model *)

Record Station : Type := {
  stationId : Z;
  isActive : bool;
  signalValue : Z
}.

Record PasswordHint : Type := { index : Z; character : string }.

Record GameUser : Type := {
  userName : string;
  password : string;
  passwordType : string;
  passwordHint : PasswordHint;
  isCorrect : bool
}.

(** A hack session; [hackStationId] is its property [stationId]. *)
Record LanternHack : Type := {
  owner : string;
  hackStationId : Z;
  gameUsers : list GameUser;
  triesLeft : Z
}.

(** A decoy of the pool; [fakePassword] is its property [password]. *)
Record FakePassword : Type := { fakePassword : string }.

(** The authenticated user; [accountName] is its property [userName]. *)
Record User : Type := { accountName : string }.

(** The station store, the session store (one session per owner) and the
    decoy pool. *)
Record Store : Type := {
  stations : gmap Z Station;
  lanternHacks : gmap string LanternHack;
  fakePasswords : list FakePassword
}.

(** The record with one field changed, as the stores write it. *)
Definition withSignalValue (station : Station) (value : Z) : Station :=
  {| stationId := stationId station; isActive := isActive station; signalValue := value |}.
Definition withTriesLeft (lanternHack : LanternHack) (tries : Z) : LanternHack :=
  {| owner := owner lanternHack; hackStationId := hackStationId lanternHack;
     gameUsers := gameUsers lanternHack; triesLeft := tries |}.

Definition setStations (m : gmap Z Station) (s : Store) : Store :=
  {| stations := m; lanternHacks := lanternHacks s; fakePasswords := fakePasswords s |}.
Definition setLanternHacks (m : gmap string LanternHack) (s : Store) : Store :=
  {| stations := stations s; lanternHacks := m; fakePasswords := fakePasswords s |}.

(** ** Events and actions *)

Inductive DbCall : Type :=
| GetAllStations
| GetStation (stationId : Z)
| UpdateSignalValue (stationId : Z) (signalValue : Z)
| GetAllFakePasswords
| GetLanternHack (owner : string)
| LowerHackTries (owner : string)
| RemoveLanternHack (owner : string).

Inductive Event : Type :=
| Db (call : DbCall)
| IsUserAllowed (token commandName : string)
| HttpPost (host path : string) (station boost : Z) (key : string)
| SetTimeout (delay : Z)
| Uncaught (exception : string)
| Replied (reply : Reply).

Definition Action : Type := Store -> Store * list Event.

Definition skip : Action := fun s => (s, []).
Definition emit (e : Event) : Action := fun s => (s, [e]).
Definition andThen (a b : Action) : Action :=
  fun s => let '(s1, e1) := a s in let '(s2, e2) := b s1 in (s2, e1 ++ e2).
Declare Scope action_scope.
Delimit Scope action_scope with act.
Bind Scope action_scope with Action.
Notation "a ;; b" := (andThen a b)
  (at level 100, b at level 200, right associativity) : action_scope.
Local Open Scope action_scope.

(** [array.forEach(f)] *)
Fixpoint forEach {A : Type} (l : list A) (f : A -> Action) : Action :=
  match l with
  | [] => skip
  | x :: rest => f x ;; forEach rest f
  end.

(** The caller's callback: the reply is sent. *)
Definition respond (r : Reply) : Action := emit (Replied r).

(** The default callback [() => {}]. *)
Definition ignore {A : Type} (_ : A) : Action := skip.

(** ** The collaborators of the manager *)

(** What the manager is run with: the answers of the collaborators that
    are not part of it, and the configuration values it reads. *)
Record Env : Type := {
  (** store calls that fail with a storage error *)
  faulty : DbCall -> bool;
  (** status code of the telemetry endpoint's response to the POST for
      [station] and [boost]; [None] when the request fails (connection
      refused or reset) and emits ['error'] *)
  telemetry : Z -> Z -> option Z;
  (** [authenticator.isUserAllowed]: the user of a token allowed to run a
      command, or the error *)
  isUserAllowed : string -> string -> Result User;
  (** [objectValidator.isValidData] on [{ password, boostingSignal }] *)
  isValidData : string -> bool -> bool;
  (** [textTools.shuffleArray] on the decoy passwords *)
  shuffleArray : list string -> list string;
  (** [appConfig.hackingApiHost], [appConfig.hackingApiKey],
      [appConfig.signalResetTimeout] and
      [dbConfig.apiCommands.HackLantern.name] *)
  hackingApiHost : string;
  hackingApiKey : string;
  signalResetTimeout : Z;
  hackLanternCommand : string
}.

Definition signalThreshold : Z := 50.
Definition signalDefault : Z := 100.
Definition changePercentage : Q := 2 # 10.
Definition signalMaxChange : Z := 10.

Section Manager.

Variable env : Env.

(** *** The store connector (db/connectors/lanternhack) *)

(** Modelled from the spec: the connector's [getAllStations] is not among
    the sources.  "Station persistence: getAllStations()"; "persistence
    failures propagate as StorageFailure". *)
Definition dbLanternHack_getAllStations
    (callback : Result (list Station) -> Action) : Action :=
  emit (Db GetAllStations) ;;
  fun s =>
    callback (if faulty env GetAllStations then Failed (Database "stations")
              else Answered (List.map snd (map_to_list (stations s)))) s.

(** Modelled from the spec: the connector's [getStation] is not among the
    sources.  "Station persistence: getStation(id)": the record of the
    station, [DoesNotExist] when there is none. *)
Definition dbLanternHack_getStation (id : Z)
    (callback : Result Station -> Action) : Action :=
  emit (Db (GetStation id)) ;;
  fun s =>
    callback (if faulty env (GetStation id) then Failed (Database "station")
              else match stations s !! id with
                   | Some station => Answered station
                   | None => Failed (DoesNotExist "station")
                   end) s.

(** Modelled from the spec: the connector's [updateSignalValue] is not
    among the sources.  "Station persistence: updateSignal(id, value)", an
    atomic write of the station's [signalValue]. *)
Definition dbLanternHack_updateSignalValue (id : Z) (value : Z)
    (callback : Result Station -> Action) : Action :=
  emit (Db (UpdateSignalValue id value)) ;;
  fun s =>
    if faulty env (UpdateSignalValue id value)
    then callback (Failed (Database "station")) s
    else match stations s !! id with
         | Some station =>
             let updated := withSignalValue station value in
             callback (Answered updated) (setStations (<[id := updated]> (stations s)) s)
         | None => callback (Failed (DoesNotExist "station")) s
         end.

(** Modelled from the spec: the connector's [getAllFakePasswords] is not
    among the sources.  "Decoy pool: an externally supplied list of filler
    passwords, consumed read-only at challenge-build time". *)
Definition dbLanternHack_getAllFakePasswords
    (callback : Result (list FakePassword) -> Action) : Action :=
  emit (Db GetAllFakePasswords) ;;
  fun s =>
    callback (if faulty env GetAllFakePasswords then Failed (Database "fake passwords")
              else Answered (fakePasswords s)) s.

(** Modelled from the spec: the connector's [getLanternHack] is not among
    the sources.  "Session persistence: getSession(owner)"; "fails with
    NoActiveSession if absent", an error of type [DoesNotExist]. *)
Definition dbLanternHack_getLanternHack (name : string)
    (callback : Result LanternHack -> Action) : Action :=
  emit (Db (GetLanternHack name)) ;;
  fun s =>
    callback (if faulty env (GetLanternHack name) then Failed (Database "lantern hack")
              else match lanternHacks s !! name with
                   | Some lanternHack => Answered lanternHack
                   | None => Failed (DoesNotExist "lantern hack")
                   end) s.

(** Modelled from the spec: the connector's [lowerHackTries] is not among
    the sources.  "decrement triesLeft by one (atomically against the
    persisted session)"; the answer carries the updated session. *)
Definition dbLanternHack_lowerHackTries (name : string)
    (callback : Result LanternHack -> Action) : Action :=
  emit (Db (LowerHackTries name)) ;;
  fun s =>
    if faulty env (LowerHackTries name)
    then callback (Failed (Database "lantern hack")) s
    else match lanternHacks s !! name with
         | Some lanternHack =>
             let lowered := withTriesLeft lanternHack (triesLeft lanternHack - 1) in
             callback (Answered lowered)
                      (setLanternHacks (<[name := lowered]> (lanternHacks s)) s)
         | None => callback (Failed (DoesNotExist "lantern hack")) s
         end.

(** Modelled from the spec: the connector's [removeLanternHack] is not
    among the sources.  "Session persistence: deleteSession(owner)"; the
    owner has no session afterwards. *)
Definition dbLanternHack_removeLanternHack (name : string)
    (callback : Result unit -> Action) : Action :=
  emit (Db (RemoveLanternHack name)) ;;
  fun s =>
    if faulty env (RemoveLanternHack name)
    then callback (Failed (Database "lantern hack")) s
    else callback (Answered tt) (setLanternHacks (delete name (lanternHacks s)) s).

(** [authenticator.isUserAllowed] *)
Definition authenticator_isUserAllowed (token commandName : string)
    (callback : Result User -> Action) : Action :=
  emit (IsUserAllowed token commandName) ;;
  callback (isUserAllowed env token commandName).

(** *** Post request to external server *)

(** [response.on('end', listener)].  A response emits ['end'] once its
    body has been consumed: read, resumed or given a ['data'] listener.
    Until then it stays paused and [listener] does not run. *)
Definition responseOnEnd (consumed : bool) (listener : Action) : Action :=
  if consumed then listener else skip.

(** The request is written and ended.  The listener given to
    [http.request] only registers a listener for ['end'] on the response:
    it never reads or resumes it, so [callback] does not run, whatever
    the endpoint answers.  The request has no ['error'] listener: a
    request that fails is an exception nobody catches. *)
Definition postRequest (host path : string) (station boost : Z) (key : string)
    (callback : Z -> Action) : Action :=
  emit (HttpPost host path station boost key) ;;
  match telemetry env station boost with
  | Some statusCode => responseOnEnd false (callback statusCode)
  | None => emit (Uncaught "Error")
  end.

(** *** Lower/increase signal value on all stations towards default value *)

(** The function [resetStations] applies to each station, the argument
    of [stations.forEach]. *)
Definition resetStation (callback : Reply -> Action) (station : Station) : Action :=
  let signalValue := signalValue station in
  let stationId := stationId station in
  if negb (signalValue =? signalDefault) then
    let newSignalValue :=
      if signalValue >? signalDefault then signalValue - 1 else signalValue + 1 in
    dbLanternHack_updateSignalValue stationId newSignalValue (fun answer =>
      match answer with
      | Failed updateError => callback (replyError updateError)
      | Answered _ =>
          postRequest (hackingApiHost env) "/reports/set_boost"
            stationId newSignalValue (hackingApiKey env) ignore ;;
          emit (SetTimeout (signalResetTimeout env))
      end)
  else skip.

Definition resetStations (callback : Reply -> Action) : Action :=
  dbLanternHack_getAllStations (fun answer =>
    match answer with
    | Failed error => callback (replyError error)
    | Answered stations => forEach stations (resetStation callback)
    end).

(** *** Update signal value on a station *)

(** The value [setNewValue] writes for the number it is given. *)
Definition ceilSignalValue (signalValue : Q) : Z :=
  let minValue := signalDefault - signalThreshold in
  let maxValue := signalDefault + signalThreshold in
  let ceilSignalValue := Qceiling signalValue in
  if ceilSignalValue >? maxValue then maxValue
  else if ceilSignalValue <? minValue then minValue
  else ceilSignalValue.

Definition setNewValue (stationId : Z) (callback : Reply -> Action)
    (signalValue : Q) : Action :=
  let ceilSignalValue := ceilSignalValue signalValue in
  dbLanternHack_updateSignalValue stationId ceilSignalValue (fun answer =>
    match answer with
    | Failed updateError => callback (replyError updateError)
    | Answered _ =>
        callback (replyData (JObj [("success", JBool true)])) ;;
        postRequest (hackingApiHost env) "/reports/set_boost"
          stationId ceilSignalValue (hackingApiKey env)
          (fun response => callback (replyData (JObj [("response", JNum response)])))
    end).

(** [signalChange] once both overrides have been looked at. *)
Definition signalChange (signalValue : Z) (boostingSignal : bool) : Q :=
  let difference := Z.abs (signalValue - signalDefault) in
  let signalChange := (inject_Z (signalThreshold - difference) * changePercentage)%Q in
  if boostingSignal && (signalValue <? signalDefault) then inject_Z signalMaxChange
  else if negb boostingSignal && (signalValue >? signalDefault) then inject_Z signalMaxChange
  else signalChange.

(** The number [updateSignalValue] hands to [setNewValue]. *)
Definition steppedSignalValue (signalValue : Z) (boostingSignal : bool) : Q :=
  let signalChange := signalChange signalValue boostingSignal in
  (inject_Z signalValue + (if boostingSignal then signalChange else - Qabs signalChange))%Q.

Definition updateSignalValue (stationId : Z) (boostingSignal : bool)
    (callback : Reply -> Action) : Action :=
  dbLanternHack_getStation stationId (fun answer =>
    match answer with
    | Failed error => callback (replyError error)
    | Answered station =>
        let signalValue := signalValue station in
        setNewValue stationId callback (steppedSignalValue signalValue boostingSignal)
    end).

(** The error the signal engine ends with, if the station cannot be read
    or the new value cannot be written. *)
Definition signalEngineError (s : Store) (stationId : Z) (boostingSignal : bool)
    : option GeneralError :=
  if faulty env (GetStation stationId) then Some (Database "station")
  else match stations s !! stationId with
       | None => Some (DoesNotExist "station")
       | Some station =>
           if faulty env
                (UpdateSignalValue stationId
                   (ceilSignalValue (steppedSignalValue (signalValue station) boostingSignal)))
           then Some (Database "station") else None
       end.

(** *** Create client hack data *)

Definition createHackData (lanternHack : LanternHack)
    (callback : Reply -> Action) : Action :=
  dbLanternHack_getAllFakePasswords (fun answer =>
    match answer with
    | Failed error => callback (replyError error)
    | Answered fakePasswords =>
        match List.find isCorrect (gameUsers lanternHack) with
        | None => emit (Uncaught "TypeError")
        | Some correctUser =>
            callback (replyData (JObj [
              ("passwords",
               JArr (List.map JStr
                 (firstn 13 (shuffleArray env (List.map fakePassword fakePasswords))
                  ++ List.map password (gameUsers lanternHack))));
              ("triesLeft", JNum (triesLeft lanternHack));
              ("userName", JStr (userName correctUser));
              ("passwordType", JStr (passwordType correctUser));
              ("passwordHint",
               JObj [("index", JNum (index (passwordHint correctUser)));
                     ("character", JStr (character (passwordHint correctUser)))]);
              ("stationId", JNum (hackStationId lanternHack))]))
        end
    end).

(** *** Manipulate station *)

(** [matches.length]: the characters of the sent password that pass the
    filter. *)
Definition matchesAmount (correctPassword sent : string) : Z :=
  let sentPassword := list_ascii_of_string (toLowerCase sent) in
  let matches :=
    List.filter
      (fun char => stringIndexOf correctPassword char =? arrayIndexOf sentPassword char)
      sentPassword in
  Z.of_nat (length matches).

(** The callback [manipulateStation] passes to [getLanternHack], from
    [const lanternHack = hackLanternData.lanternHack] on.  [sent] is the
    parameter [password] of the source and [user] is [data.user]. *)
Definition evaluateGuess (sent : string) (boostingSignal : bool) (user : User)
    (callback : Reply -> Action) (lanternHack : LanternHack) : Action :=
  match List.find isCorrect (gameUsers lanternHack) with
  | None => emit (Uncaught "TypeError")
  | Some correctUser =>
    if String.eqb (password correctUser) (toLowerCase sent)
       && (triesLeft lanternHack >? 0)
    then
      updateSignalValue (hackStationId lanternHack) boostingSignal (fun reply =>
        match error reply with
        | Some updateError => callback (replyError (External "wrecking"))
        | None =>
            dbLanternHack_removeLanternHack (accountName user) (fun answer =>
              match answer with
              | Failed removeError => callback (replyError removeError)
              | Answered _ =>
                  callback (replyData (JObj [("success", JBool true);
                                             ("boostingSignal", JBool boostingSignal)]))
              end)
        end)
    else
      dbLanternHack_lowerHackTries (accountName user) (fun answer =>
        match answer with
        | Failed lowerError => callback (replyError lowerError)
        | Answered loweredHack =>
            if triesLeft loweredHack <=? 0
            then
              dbLanternHack_removeLanternHack (accountName user) (fun answer =>
                match answer with
                | Failed removeError => callback (replyError removeError)
                | Answered _ =>
                    callback (replyData (JObj [("success", JBool false);
                                               ("triesLeft", JNum (triesLeft loweredHack))]))
                end)
            else
              callback (replyData (JObj [
                ("success", JBool false);
                ("triesLeft", JNum (triesLeft loweredHack));
                ("matches",
                 JObj [("amount", JNum (matchesAmount (password correctUser) sent))])]))
        end)
  end.

Definition manipulateStation (sent : string) (boostingSignal : bool) (token : string)
    (callback : Reply -> Action) : Action :=
  if negb (isValidData env sent boostingSignal)
  then callback (replyError (InvalidData "{ password, boostingSignal }"))
  else
  authenticator_isUserAllowed token (hackLanternCommand env) (fun answer =>
    match answer with
    | Failed error => callback (replyError error)
    | Answered user =>
        dbLanternHack_getLanternHack (accountName user) (fun answer =>
          match answer with
          | Failed getError => callback (replyError getError)
          | Answered lanternHack =>
              evaluateGuess sent boostingSignal user callback lanternHack
          end)
    end).

End Manager.

(** ** Reading a run *)

(** The replies sent to the caller, in order. *)
Fixpoint replies (events : list Event) : list Reply :=
  match events with
  | [] => []
  | Replied r :: rest => r :: replies rest
  | _ :: rest => replies rest
  end.

(** The store calls made, in order. *)
Fixpoint dbCalls (events : list Event) : list DbCall :=
  match events with
  | [] => []
  | Db call :: rest => call :: dbCalls rest
  | _ :: rest => dbCalls rest
  end.

(** How many times [setTimeout(resetStations, ...)] ran. *)
Fixpoint timersSet (events : list Event) : nat :=
  match events with
  | [] => 0%nat
  | SetTimeout _ :: rest => S (timersSet rest)
  | _ :: rest => timersSet rest
  end.

Definition isEngineCall (call : DbCall) : bool :=
  match call with
  | GetStation _ | UpdateSignalValue _ _ => true
  | _ => false
  end.

(** The station is off the baseline, so a tick writes it. *)
Definition needsReset (station : Station) : bool :=
  negb (signalValue station =? signalDefault).

(** The signal value a tick leaves for a station it could write. *)
Definition decayed (old : Z) : Z :=
  if old =? signalDefault then old
  else if old >? signalDefault then old - 1 else old + 1.

(** Calls that change a session: a try taken, the session removed. *)
Definition writesSession (call : DbCall) : bool :=
  match call with
  | LowerHackTries _ | RemoveLanternHack _ => true
  | _ => false
  end.

(** [data.success === true] in a reply. *)
Definition repliesSuccess (r : Reply) : bool :=
  match data r with
  | Some d =>
      match getField "success" d with
      | Some (JBool true) => true
      | _ => false
      end
  | None => false
  end.

(** The success branch of [manipulateStation] left a trace: the signal
    engine was called or a reply says [success: true]. *)
Definition successBranchTaken (events : list Event) : bool :=
  existsb isEngineCall (dbCalls events) || existsb repliesSuccess (replies events).

(** A failed guess as the caller sees it: [success: false], [triesLeft]
    and [matches.amount]. *)
Definition reportsFailureWithMatches (r : Reply) : bool :=
  match data r with
  | Some d =>
      match getField "success" d, getField "triesLeft" d, getField "matches" d with
      | Some (JBool false), Some (JNum _), Some m =>
          match getField "amount" m with
          | Some (JNum _) => true
          | _ => false
          end
      | _, _, _ => false
      end
  | None => false
  end.

(** ** The claims' own words, to compare the code with *)

(** Number of positions [i] at which the guess and the correct password
    have the same character. *)
Fixpoint positionalMatches (guess correct : list ascii) : Z :=
  match guess, correct with
  | g :: guess', c :: correct' =>
      (if Ascii.eqb g c then 1 else 0) + positionalMatches guess' correct'
  | _, _ => 0
  end.

(** [difference = |signalValue - baseline|], the proportional step
    [(threshold - difference) * changePercentage], replaced by the maximum
    step exactly when boosting below the baseline or cutting above it,
    then [+step] when boosting and [-step] when cutting. *)
Definition specSteppedSignalValue (signalValue : Z) (boosting : bool) : Q :=
  let difference := Z.abs (signalValue - signalDefault) in
  let proportional := (inject_Z (signalThreshold - difference) * changePercentage)%Q in
  let step :=
    if (boosting && (signalValue <? signalDefault))
       || (negb boosting && (signalValue >? signalDefault))
    then inject_Z signalMaxChange else proportional in
  if boosting then (inject_Z signalValue + step)%Q else (inject_Z signalValue - step)%Q.

(** One unit toward the baseline, as the decay tick is described. *)
Definition movedTowardBaseline (old new : Z) : Prop :=
  (old > signalDefault -> new = old - 1 /\ new >= signalDefault)
  /\ (old < signalDefault -> new = old + 1 /\ new <= signalDefault)
  /\ (old = signalDefault -> new = old).

(** Every record is filed under its own [stationId]. *)
Definition stationsKeyed (s : Store) : Prop :=
  map_Forall (fun id station => stationId station = id) (stations s).

(** The candidates' passwords merged with at most 13 decoys into one
    list, and that list shuffled. *)
Definition specMergedPasswords (env : Env) (fakePasswords : list FakePassword)
    (lanternHack : LanternHack) : list string :=
  shuffleArray env
    (firstn 13 (List.map fakePassword fakePasswords)
     ++ List.map password (gameUsers lanternHack)).

(** The [passwords] of the one payload sent, if one payload was sent. *)
Definition passwordsSent (events : list Event) : option JsVal :=
  match replies events with
  | [reply] =>
      match data reply with
      | Some payload => getField "passwords" payload
      | None => None
      end
  | _ => None
  end.

(** ** The signal step in IEEE 754 doubles *)

Module Binary64.

(** The double of an integer (exact below 2^53). *)
Definition number (z : Z) : float :=
  if z <? 0 then PrimFloat.opp (PrimFloat.of_uint63 (Uint63.of_Z (- z)))
  else PrimFloat.of_uint63 (Uint63.of_Z z).

(** [Math.ceil] of a finite double, as the integer it is. *)
Definition ceil (x : float) : option Z :=
  match Prim2SF x with
  | S754_zero _ => Some 0
  | S754_finite negative m e =>
      let m := Z.pos m in
      if 0 <=? e then Some ((if negative then - m else m) * 2 ^ e)
      else if negative then Some (- (m / 2 ^ (- e)))
      else Some (- ((- m) / 2 ^ (- e)))
  | _ => None
  end.

(** The double nearest to [0.2]. *)
Definition changePercentage : float := 0x1.999999999999ap-3%float.

(** The number [updateSignalValue] hands to [setNewValue]. *)
Definition steppedSignalValue (signalValue : Z) (boostingSignal : bool) : float :=
  let signalValue := number signalValue in
  let signalDefault := number 100 in
  let difference := PrimFloat.abs (PrimFloat.sub signalValue signalDefault) in
  let signalChange :=
    PrimFloat.mul (PrimFloat.sub (number 50) difference) changePercentage in
  let signalChange :=
    if boostingSignal && PrimFloat.ltb signalValue signalDefault then number 10
    else if negb boostingSignal && PrimFloat.ltb signalDefault signalValue then number 10
    else signalChange in
  PrimFloat.add signalValue
    (if boostingSignal then signalChange else PrimFloat.opp (PrimFloat.abs signalChange)).

End Binary64.

(** The doubles and the exact numbers round up to the same integer. *)
Definition binary64Agrees (signalValue : Z) (boostingSignal : bool) : bool :=
  match Binary64.ceil (Binary64.steppedSignalValue signalValue boostingSignal) with
  | Some z => z =? Qceiling (steppedSignalValue signalValue boostingSignal)
  | None => false
  end.

(** [n] consecutive integers from [lo]. *)
Definition integersFrom (lo : Z) (n : nat) : list Z :=
  List.map (fun i => lo + Z.of_nat i) (seq 0 n).

(** ** Concrete runs *)

Module Sample.

Definition env : Env := {|
  faulty := fun _ => false;
  telemetry := fun _ _ => Some 200;
  isUserAllowed := fun token _ => Answered {| accountName := token |};
  isValidData := fun _ _ => true;
  shuffleArray := fun passwords => rev passwords;
  hackingApiHost := "hacking.example";
  hackingApiKey := "key";
  signalResetTimeout := 60000;
  hackLanternCommand := "hackLantern"
|}.

(** The same collaborators with a station store that refuses writes. *)
Definition envWriteFails : Env := {|
  faulty := fun call => match call with UpdateSignalValue _ _ => true | _ => false end;
  telemetry := telemetry env;
  isUserAllowed := isUserAllowed env;
  isValidData := isValidData env;
  shuffleArray := shuffleArray env;
  hackingApiHost := hackingApiHost env;
  hackingApiKey := hackingApiKey env;
  signalResetTimeout := signalResetTimeout env;
  hackLanternCommand := hackLanternCommand env
|}.

(** The same collaborators with a shuffle that happens to leave the
    order as it is. *)
Definition envKeepsOrder : Env := {|
  faulty := faulty env;
  telemetry := telemetry env;
  isUserAllowed := isUserAllowed env;
  isValidData := isValidData env;
  shuffleArray := fun passwords => passwords;
  hackingApiHost := hackingApiHost env;
  hackingApiKey := hackingApiKey env;
  signalResetTimeout := signalResetTimeout env;
  hackLanternCommand := hackLanternCommand env
|}.

Definition station (id value : Z) : Station :=
  {| stationId := id; isActive := true; signalValue := value |}.

Definition gameUser (name pass type : string) (correct : bool) : GameUser :=
  {| userName := name; password := pass; passwordType := type;
     passwordHint := {| index := 0; character := substring 0 1 pass |};
     isCorrect := correct |}.

Definition lanternHack (tries : Z) : LanternHack :=
  {| owner := "bob"; hackStationId := 1;
     gameUsers := [gameUser "ada" "apple" "A" true; gameUser "eve" "grape" "B" false];
     triesLeft := tries |}.

Definition store (signals : list (Z * Z)) (tries : Z) : Store :=
  {| stations := list_to_map (List.map (fun iv => (fst iv, station (fst iv) (snd iv))) signals);
     lanternHacks := {["bob" := lanternHack tries]};
     fakePasswords := List.map Build_FakePassword ["melon"; "lemon"; "peach"] |}.

End Sample.

(** * Requesting a challenge: [createLanternHack] and [getLanternHack] *)

(** A game user as the store holds it: a name and its passwords. *)
Record StoredGameUser : Type := {
  storedUserName : string;
  passwords : list string
}.

(** The further collaborators of [createLanternHack] and [getLanternHack].
    The two store calls they make, [getGameUsers] and [updateLanternHack],
    are not among the calls a run records; they leave no event. *)
Record HackEnv : Type := {
  (** answer of [dbLanternHack.getGameUsers] for a station *)
  getGameUsers : Z -> Result (list StoredGameUser);
  (** owners for which [dbLanternHack.updateLanternHack] fails *)
  updateLanternHackFails : string -> bool;
  (** [textTools.shuffleArray] on the game users *)
  shuffleGameUsers : list StoredGameUser -> list StoredGameUser;
  (** the results of the calls of [Math.random], in order *)
  random : nat -> Q;
  (** [objectValidator.isValidData] on [{ stationId }] *)
  isValidStationId : Z -> bool;
  (** [dbConfig.commands.hackLantern.commandName] and
      [appConfig.hackingTriesAmount] *)
  hackLanternCommandName : string;
  hackingTriesAmount : Z
}.

(** [array[i]], [undefined] out of range. *)
Definition arrayAt {A : Type} (l : list A) (i : Z) : option A :=
  if i <? 0 then None else nth_error l (Z.to_nat i).

(** [string.charAt(i)], the empty string out of range. *)
Definition charAt (s : string) (i : Z) : string :=
  if i <? 0 then ""
  else match String.get (Z.to_nat i) s with
       | Some c => String c ""
       | None => ""
       end.

Definition upperChar (c : ascii) : ascii :=
  let n := nat_of_ascii c in
  if ((97 <=? n)%nat && (n <=? 122)%nat)%bool then ascii_of_nat (n - 32) else c.

(** [String.fromCharCode(code).toUpperCase()], for the ASCII codes. *)
Definition upperFromCharCode (code : Z) : string :=
  String (upperChar (ascii_of_nat (Z.to_nat code))) "".

(** [Math.floor(Math.random() * n)] with [r] the result of [Math.random]. *)
Definition randomBelow (r : Q) (n : Z) : Z := Qfloor (r * inject_Z n).

Section HackRequest.

Variable env : Env.
Variable hackEnv : HackEnv.

(** Modelled from the spec: the connector's [updateLanternHack] is not
    among the sources.  "Session persistence: replaceSession(session)",
    "replaced wholesale (not merged)"; the answer carries the stored
    session. *)
Definition dbLanternHack_updateLanternHack (stationId : Z) (name : string)
    (candidates : list GameUser) (tries : Z)
    (callback : Result LanternHack -> Action) : Action :=
  fun s =>
    if updateLanternHackFails hackEnv name
    then callback (Failed (Database "lantern hack")) s
    else
      let lanternHack := {| owner := name; hackStationId := stationId;
                            gameUsers := candidates; triesLeft := tries |} in
      callback (Answered lanternHack)
               (setLanternHacks (<[name := lanternHack]> (lanternHacks s)) s).

(** The function [createLanternHack] maps over the chosen game users;
    [draw] is the number of calls of [Math.random] made before.  [None]
    when [password] is [undefined] and reading its length throws. *)
Definition chooseCandidate (draw : nat) (gameUser : StoredGameUser) : option GameUser :=
  let passwordRand :=
    randomBelow (random hackEnv draw) (Z.of_nat (length (passwords gameUser))) in
  match arrayAt (passwords gameUser) passwordRand with
  | None => None
  | Some password =>
      let randomIndex :=
        randomBelow (random hackEnv (S draw)) (Z.of_nat (String.length password)) in
      Some {| password := password;
              passwordType := upperFromCharCode (97 + passwordRand);
              userName := storedUserName gameUser;
              passwordHint := {| index := randomIndex;
                                 character := charAt password randomIndex |};
              isCorrect := false |}
  end.

(** [array.map] of [chooseCandidate], each element taking two draws. *)
Fixpoint chooseCandidates (draw : nat) (chosen : list StoredGameUser)
    : option (list GameUser) :=
  match chosen with
  | [] => Some []
  | gameUser :: rest =>
      match chooseCandidate draw gameUser with
      | None => None
      | Some candidate =>
          match chooseCandidates (S (S draw)) rest with
          | None => None
          | Some candidates => Some (candidate :: candidates)
          end
      end
  end.

(** [gameUsers[0].isCorrect = true] *)
Definition markCorrect (candidate : GameUser) : GameUser :=
  {| password := password candidate; passwordType := passwordType candidate;
     userName := userName candidate; passwordHint := passwordHint candidate;
     isCorrect := true |}.

(** *** Create lantern hack for user *)

Definition createLanternHack (stationId : Z) (name : string) (tries : Z)
    (callback : Result LanternHack -> Action) : Action :=
  match getGameUsers hackEnv stationId with
  | Failed error => callback (Failed error)
  | Answered stored =>
      if (Z.of_nat (length stored) <? 1)
      then callback (Failed (DoesNotExist "game users"))
      else
        match chooseCandidates 0 (firstn 2 (shuffleGameUsers hackEnv stored)) with
        | Some (first :: others) =>
            dbLanternHack_updateLanternHack stationId name (markCorrect first :: others) tries
              (fun answer =>
                 match answer with
                 | Failed updateError => callback (Failed updateError)
                 | Answered lanternHack => callback (Answered lanternHack)
                 end)
        | _ => emit (Uncaught "TypeError")
        end
  end.

(** *** Get lantern hack *)

(** The callback [getLanternHack] gives to [createHackData]. *)
Definition forwardHackData (callback : Reply -> Action) (reply : Reply) : Action :=
  match error reply with
  | Some hackDataErr => callback (replyError hackDataErr)
  | None => callback {| error := None; data := data reply |}
  end.

Definition getLanternHack (stationId : Z) (token : string)
    (callback : Reply -> Action) : Action :=
  if negb (isValidStationId hackEnv stationId)
  then callback (replyError (InvalidData "{ stationId }"))
  else
  authenticator_isUserAllowed env token (hackLanternCommandName hackEnv) (fun answer =>
    match answer with
    | Failed error => callback (replyError error)
    | Answered user =>
        dbLanternHack_getLanternHack env (accountName user) (fun answer =>
          match answer with
          | Failed getError =>
              match errType getError with
              | DOESNOTEXIST => emit (Uncaught "TypeError")
              | _ => callback (replyError getError)
              end
          | Answered lanternHack =>
              if negb (hackStationId lanternHack =? stationId)
              then
                createLanternHack stationId (accountName user) (hackingTriesAmount hackEnv)
                  (fun created =>
                     match created with
                     | Failed createError => callback (replyError createError)
                     | Answered createdHack =>
                         createHackData env createdHack (forwardHackData callback)
                     end)
              else createHackData env lanternHack (forwardHackData callback)
          end)
    end).

End HackRequest.

(** ** Further readings of a store *)

(** Every station's signal value lies within the threshold of the
    baseline. *)
Definition stationsWithinBounds (s : Store) : Prop :=
  map_Forall (fun _ station =>
                signalDefault - signalThreshold <= signalValue station
                <= signalDefault + signalThreshold) (stations s).

(** The signal value [n] decay ticks leave. *)
Definition decayedBy (n : nat) (old : Z) : Z :=
  if old >? signalDefault then Z.max signalDefault (old - Z.of_nat n)
  else Z.min signalDefault (old + Z.of_nat n).

(** The candidate was made from the stored game user: it has the user's
    name, one of the user's passwords, the type that says which one, and
    a hint that shows one character of that password. *)
Definition drawnFrom (gameUser : StoredGameUser) (candidate : GameUser) : Prop :=
  userName candidate = storedUserName gameUser
  /\ (exists i,
        0 <= i
        /\ nth_error (passwords gameUser) (Z.to_nat i) = Some (password candidate)
        /\ passwordType candidate = upperFromCharCode (97 + i))
  /\ 0 <= index (passwordHint candidate)
  /\ (password candidate <> "" ->
      index (passwordHint candidate) < Z.of_nat (String.length (password candidate)))
  /\ character (passwordHint candidate)
     = charAt (password candidate) (index (passwordHint candidate)).

Definition isUncaught (event : Event) : bool :=
  match event with Uncaught _ => true | _ => false end.

(** Exactly one candidate is marked correct, the first one. *)
Definition firstIsCorrect (candidates : list GameUser) : Prop :=
  match candidates with
  | [] => False
  | first :: others =>
      isCorrect first = true /\ Forall (fun other => isCorrect other = false) others
  end.

(** ** Concrete data for requests *)

Module SampleRequest.

Definition pool : list StoredGameUser :=
  [{| storedUserName := "ada"; passwords := ["apple"; "olive"] |};
   {| storedUserName := "eve"; passwords := ["grape"] |};
   {| storedUserName := "dan"; passwords := ["melon"; "lemon"; "peach"] |}].

(** Station 2 has game users, the other stations have none. *)
Definition hackEnv : HackEnv := {|
  getGameUsers := fun stationId => Answered (if stationId =? 2 then pool else []);
  updateLanternHackFails := fun _ => false;
  shuffleGameUsers := fun stored => rev stored;
  random := fun draw => if Nat.even draw then 3 # 4 else 1 # 2;
  isValidStationId := fun _ => true;
  hackLanternCommandName := "hackLantern";
  hackingTriesAmount := 3
|}.

(** The session the request of "bob" for station 2 makes with these
    collaborators. *)
Definition created : LanternHack :=
  {| owner := "bob"; hackStationId := 2;
     gameUsers :=
       [{| userName := "dan"; password := "peach"; passwordType := "C";
           passwordHint := {| index := 2; character := "a" |}; isCorrect := true |};
        {| userName := "eve"; password := "grape"; passwordType := "A";
           passwordHint := {| index := 2; character := "a" |}; isCorrect := false |}];
     triesLeft := 3 |}.

(** A session whose correct password has an upper-case letter. *)
Definition mixedCaseHack : LanternHack :=
  {| owner := "bob"; hackStationId := 1;
     gameUsers := [Sample.gameUser "ada" "Apple" "A" true];
     triesLeft := 3 |}.

Definition mixedCaseStore : Store :=
  {| stations := {[1 := Sample.station 1 100]};
     lanternHacks := {["bob" := mixedCaseHack]};
     fakePasswords := [] |}.

End SampleRequest.

(** * Properties *)

(** ** Running actions *)

Lemma andThen_emit (e : Event) (a : Action) (s : Store) :
  (emit e ;; a) s = (fst (a s), e :: snd (a s)).
Proof. unfold andThen, emit. destruct (a s); reflexivity. Qed.

Lemma replies_app (e1 e2 : list Event) : replies (e1 ++ e2) = replies e1 ++ replies e2.
Proof.
  induction e1 as [| e e1 IH]; [reflexivity |].
  destruct e; cbn [replies app]; rewrite IH; reflexivity.
Qed.

Lemma dbCalls_app (e1 e2 : list Event) : dbCalls (e1 ++ e2) = dbCalls e1 ++ dbCalls e2.
Proof.
  induction e1 as [| e e1 IH]; [reflexivity |].
  destruct e; cbn [dbCalls app]; rewrite IH; reflexivity.
Qed.

Lemma timersSet_app (e1 e2 : list Event) :
  timersSet (e1 ++ e2) = (timersSet e1 + timersSet e2)%nat.
Proof.
  induction e1 as [| e e1 IH]; [reflexivity |].
  destruct e; cbn [timersSet app]; rewrite IH; reflexivity.
Qed.

(** ** The signal engine *)

Section SignalEngine.

Lemma ceilSignalValue_clamp (x : Q) :
  ceilSignalValue x =
  Z.max (signalDefault - signalThreshold)
        (Z.min (signalDefault + signalThreshold) (Qceiling x)).
Proof.
  unfold ceilSignalValue, signalDefault, signalThreshold.
  destruct (Z.gtb_spec (Qceiling x) (100 + 50)), (Z.ltb_spec (Qceiling x) (100 - 50)); lia.
Qed.

Lemma ceilSignalValue_bounds (x : Q) :
  signalDefault - signalThreshold <= ceilSignalValue x <= signalDefault + signalThreshold.
Proof.
  rewrite ceilSignalValue_clamp. unfold signalDefault, signalThreshold. lia.
Qed.

Lemma ceilSignalValue_comp (x y : Q) : (x == y)%Q -> ceilSignalValue x = ceilSignalValue y.
Proof.
  intros H. rewrite !ceilSignalValue_clamp. now rewrite (Qceiling_comp x y H).
Qed.

Lemma Qceiling_small (x : Q) (z : Z) : (x <= inject_Z z)%Q -> Qceiling x <= z.
Proof.
  intros H. rewrite <- (Qceiling_Z z). now apply Qceiling_resp_le.
Qed.

Lemma ceilSignalValue_low (x : Q) :
  (x <= inject_Z (signalDefault - signalThreshold))%Q ->
  ceilSignalValue x = signalDefault - signalThreshold.
Proof.
  intros H. apply Qceiling_small in H. rewrite ceilSignalValue_clamp.
  unfold signalDefault, signalThreshold in *. lia.
Qed.

Lemma ceilSignalValue_agrees (signalValue : Z) (boosting : bool) :
  ceilSignalValue (steppedSignalValue signalValue boosting)
  = ceilSignalValue (specSteppedSignalValue signalValue boosting).
Proof.
  unfold steppedSignalValue, specSteppedSignalValue, signalChange.
  destruct boosting; cbn [andb negb orb].
  - destruct (signalValue <? signalDefault); reflexivity.
  - destruct (Z.gtb_spec signalValue signalDefault) as [Hgt | Hle].
    + reflexivity.
    + set (change := (inject_Z (signalThreshold - Z.abs (signalValue - signalDefault)) * changePercentage)%Q).
      destruct (Z.le_gt_cases (signalDefault - signalThreshold) signalValue) as [Hin | Hout].
      * apply ceilSignalValue_comp.
        assert (0 <= change)%Q as Hpos.
        { unfold change, changePercentage, Qle, signalDefault, signalThreshold in *. simpl. lia. }
        rewrite (Qabs_pos _ Hpos). reflexivity.
      * rewrite !ceilSignalValue_low; [reflexivity | |].
        -- unfold change, changePercentage, Qle, Qminus, Qplus, Qmult, Qopp, inject_Z, signalDefault, signalThreshold in *. simpl. lia.
        -- assert (change <= 0)%Q as Hneg.
           { unfold change, changePercentage, Qle, signalDefault, signalThreshold in *. simpl. lia. }
           rewrite (Qabs_neg _ Hneg).
           unfold change, changePercentage, Qle, Qminus, Qplus, Qmult, Qopp, inject_Z, signalDefault, signalThreshold in *. simpl. lia.
Qed.

(** X1.  Evaluated in IEEE 754 doubles, as JavaScript evaluates it, the
    value given to [Math.ceil] rounds up to the same integer as the exact
    value over [Q], for every signal value from -1000 to 1000 and both
    directions. *)
Lemma binary64_agrees (signalValue : Z) (boosting : bool) :
  -1000 <= signalValue <= 1000 ->
  Binary64.ceil (Binary64.steppedSignalValue signalValue boosting)
  = Some (Qceiling (steppedSignalValue signalValue boosting)).
Proof.
  intros Hrange.
  assert (forallb (fun v => binary64Agrees v true && binary64Agrees v false)
            (integersFrom (-1000) 2001) = true) as Hall by (vm_compute; reflexivity).
  rewrite forallb_forall in Hall.
  assert (In signalValue (integersFrom (-1000) 2001)) as Hin.
  { apply in_map_iff. exists (Z.to_nat (signalValue + 1000)). split; [lia |].
    apply in_seq. lia. }
  specialize (Hall _ Hin). apply andb_prop in Hall as [Hboost Hcut].
  assert (binary64Agrees signalValue boosting = true) as Hagree
    by (destruct boosting; assumption).
  unfold binary64Agrees in Hagree.
  destruct (Binary64.ceil _) as [z |]; [| discriminate].
  apply Z.eqb_eq in Hagree. now subst.
Qed.

Variable env : Env.

(** The response of the telemetry endpoint is never consumed: whatever
    the callback, the request is sent and that is all, or it fails. *)
Lemma postRequest_run host path station boost key callback s :
  postRequest env host path station boost key callback s
  = (s, HttpPost host path station boost key
        :: match telemetry env station boost with
           | Some _ => []
           | None => [Uncaught "Error"]
           end).
Proof.
  unfold postRequest, responseOnEnd. rewrite andThen_emit.
  destruct (telemetry env station boost); reflexivity.
Qed.

Lemma updateSignalValue_run id boosting callback s station :
  stations s !! id = Some station ->
  signalEngineError env s id boosting = None ->
  let value := ceilSignalValue (steppedSignalValue (signalValue station) boosting) in
  updateSignalValue env id boosting callback s =
    let s1 := setStations (<[id := withSignalValue station value]> (stations s)) s in
    let '(s2, e2) := callback (replyData (JObj [("success", JBool true)])) s1 in
    let '(s3, e3) :=
      postRequest env (hackingApiHost env) "/reports/set_boost" id value (hackingApiKey env)
        (fun response => callback (replyData (JObj [("response", JNum response)]))) s2 in
    (s3, Db (GetStation id) :: Db (UpdateSignalValue id value) :: e2 ++ e3).
Proof.
  intros Hst Hok value. unfold signalEngineError in Hok. rewrite Hst in Hok.
  destruct (faulty env (GetStation id)) eqn:Hget; [discriminate |].
  fold value in Hok.
  destruct (faulty env (UpdateSignalValue id value)) eqn:Hput; [discriminate |].
  unfold updateSignalValue, dbLanternHack_getStation, andThen, emit.
  rewrite Hget, Hst.
  unfold setNewValue, dbLanternHack_updateSignalValue, andThen, emit.
  fold value. rewrite Hput, Hst. cbn zeta.
  destruct (callback _ _) as [s2 e2].
  destruct (postRequest _ _ _ _ _ _ _ _) as [s3 e3].
  reflexivity.
Qed.

Lemma updateSignalValue_fails id boosting callback s error :
  signalEngineError env s id boosting = Some error ->
  exists calls,
    forallb isEngineCall calls = true
    /\ updateSignalValue env id boosting callback s =
       let '(s1, e1) := callback (replyError error) s in (s1, List.map Db calls ++ e1).
Proof.
  unfold signalEngineError, updateSignalValue, dbLanternHack_getStation, andThen, emit.
  intros Herr.
  destruct (faulty env (GetStation id)) eqn:Hget.
  - injection Herr as <-. exists [GetStation id]. split; [reflexivity |].
    destruct (callback _ _); reflexivity.
  - destruct (stations s !! id) as [station |] eqn:Hst.
    + set (value := ceilSignalValue (steppedSignalValue (signalValue station) boosting)) in *.
      destruct (faulty env (UpdateSignalValue id value)) eqn:Hput; [| discriminate].
      injection Herr as <-. exists [GetStation id; UpdateSignalValue id value].
      split; [reflexivity |].
      unfold setNewValue, dbLanternHack_updateSignalValue, andThen, emit.
      fold value. rewrite Hput.
      destruct (callback _ _); reflexivity.
    + injection Herr as <-. exists [GetStation id]. split; [reflexivity |].
      destruct (callback _ _); reflexivity.
Qed.


Lemma updateSignalValue_responds id boosting s station :
  stations s !! id = Some station ->
  signalEngineError env s id boosting = None ->
  let value := ceilSignalValue (steppedSignalValue (signalValue station) boosting) in
  updateSignalValue env id boosting respond s =
    (setStations (<[id := withSignalValue station value]> (stations s)) s,
     [Db (GetStation id); Db (UpdateSignalValue id value);
      Replied (replyData (JObj [("success", JBool true)]));
      HttpPost (hackingApiHost env) "/reports/set_boost" id value (hackingApiKey env)]
     ++ match telemetry env id value with
        | Some _ => []
        | None => [Uncaught "Error"]
        end).
Proof.
  intros Hst Hok value.
  rewrite (updateSignalValue_run _ _ _ _ _ Hst Hok). fold value.
  cbn [respond emit]. rewrite postRequest_run. reflexivity.
Qed.

(** C4.  Whatever the station's signal value was and whichever direction
    is asked for, when the signal engine persists a value, the value it
    leaves in the station store is the computed number rounded up and then
    clamped, and it lies between [signalDefault - signalThreshold] and
    [signalDefault + signalThreshold], that is between 50 and 150. *)
Theorem updateSignalValue_persists_within_bounds id boosting s station :
  stations s !! id = Some station ->
  signalEngineError env s id boosting = None ->
  let computed := steppedSignalValue (signalValue station) boosting in
  exists station',
    stations (fst (updateSignalValue env id boosting respond s)) !! id = Some station'
    /\ signalValue station'
       = Z.max (signalDefault - signalThreshold)
               (Z.min (signalDefault + signalThreshold) (Qceiling computed))
    /\ (inject_Z (Qceiling computed - 1) < computed <= inject_Z (Qceiling computed))%Q
    /\ signalDefault - signalThreshold <= signalValue station'
       <= signalDefault + signalThreshold.
Proof.
  intros Hst Hok computed.
  rewrite (updateSignalValue_responds _ _ _ _ Hst Hok). fold computed.
  exists (withSignalValue station (ceilSignalValue computed)).
  split; [apply lookup_insert_eq |].
  cbn [signalValue withSignalValue].
  split; [apply ceilSignalValue_clamp |].
  split; [split; [apply Qceiling_lt | apply Qle_ceiling] |].
  apply ceilSignalValue_bounds.
Qed.

(** C5.  The one value the signal engine writes is the round-up and clamp
    of the number the description gives: [difference] is the distance to
    the baseline, the step is [(threshold - difference) * changePercentage],
    replaced by [signalMaxChange] exactly when boosting below the baseline
    or cutting above it, added when boosting and subtracted when cutting.
    (The code subtracts the absolute value of the step; the two differ only
    for a station below [signalDefault - signalThreshold], where both end
    at the lower bound, see [ceilSignalValue_agrees].) *)
Theorem updateSignalValue_applies_step id boosting s station :
  stations s !! id = Some station ->
  signalEngineError env s id boosting = None ->
  let value := ceilSignalValue (specSteppedSignalValue (signalValue station) boosting) in
  dbCalls (snd (updateSignalValue env id boosting respond s))
    = [GetStation id; UpdateSignalValue id value]
  /\ stations (fst (updateSignalValue env id boosting respond s)) !! id
     = Some (withSignalValue station value).
Proof.
  intros Hst Hok value.
  rewrite (updateSignalValue_responds _ _ _ _ Hst Hok).
  unfold value. rewrite <- ceilSignalValue_agrees.
  split; [| apply lookup_insert_eq].
  cbn [snd]. destruct (telemetry env _ _); reflexivity.
Qed.

(** When the write of the new value succeeds, [updateSignalValue] runs
    its callback once, with [{ success: true }] right after the write.
    The callback that would report [{ response }] is handed to
    [postRequest] and never runs, whatever the endpoint answers. *)
Lemma updateSignalValue_calls_back id boosting callback s station :
  stations s !! id = Some station ->
  signalEngineError env s id boosting = None ->
  let value := ceilSignalValue (steppedSignalValue (signalValue station) boosting) in
  updateSignalValue env id boosting callback s =
    let written := setStations (<[id := withSignalValue station value]> (stations s)) s in
    let '(s1, first) := callback (replyData (JObj [("success", JBool true)])) written in
    (s1,
     [Db (GetStation id); Db (UpdateSignalValue id value)] ++ first
     ++ HttpPost (hackingApiHost env) "/reports/set_boost" id value (hackingApiKey env)
        :: match telemetry env id value with
           | Some _ => []
           | None => [Uncaught "Error"]
           end).
Proof.
  intros Hst Hok value.
  rewrite (updateSignalValue_run _ _ _ _ _ Hst Hok). fold value. cbn zeta.
  destruct (callback _ _) as [s1 first].
  rewrite postRequest_run. reflexivity.
Qed.

End SignalEngine.

(** ** Guess evaluation *)

Section Guess.

Variable env : Env.

Lemma manipulateStation_loaded sent boosting token s user lanternHack :
  isValidData env sent boosting = true ->
  isUserAllowed env token (hackLanternCommand env) = Answered user ->
  faulty env (GetLanternHack (accountName user)) = false ->
  lanternHacks s !! accountName user = Some lanternHack ->
  manipulateStation env sent boosting token respond s =
    (fst (evaluateGuess env sent boosting user respond lanternHack s),
     IsUserAllowed token (hackLanternCommand env) :: Db (GetLanternHack (accountName user))
     :: snd (evaluateGuess env sent boosting user respond lanternHack s)).
Proof.
  intros Hvalid Hauth Hget Hhack.
  unfold manipulateStation, authenticator_isUserAllowed, dbLanternHack_getLanternHack.
  rewrite Hvalid. cbn [negb]. rewrite andThen_emit, Hauth, andThen_emit, Hget, Hhack.
  reflexivity.
Qed.

(** The mismatch path: the tries are lowered, and the session is removed
    when none is left. *)
Lemma evaluateGuess_mismatch sent boosting user lanternHack correctUser s :
  lanternHacks s !! accountName user = Some lanternHack ->
  List.find isCorrect (gameUsers lanternHack) = Some correctUser ->
  (String.eqb (password correctUser) (toLowerCase sent) && (triesLeft lanternHack >? 0))
    = false ->
  faulty env (LowerHackTries (accountName user)) = false ->
  let name := accountName user in
  let lowered := withTriesLeft lanternHack (triesLeft lanternHack - 1) in
  let s1 := setLanternHacks (<[name := lowered]> (lanternHacks s)) s in
  evaluateGuess env sent boosting user respond lanternHack s =
    if triesLeft lanternHack - 1 <=? 0
    then
      if faulty env (RemoveLanternHack name)
      then (s1, [Db (LowerHackTries name); Db (RemoveLanternHack name);
                 Replied (replyError (Database "lantern hack"))])
      else (setLanternHacks (delete name (lanternHacks s1)) s1,
            [Db (LowerHackTries name); Db (RemoveLanternHack name);
             Replied (replyData (JObj [("success", JBool false);
                                       ("triesLeft", JNum (triesLeft lanternHack - 1))]))])
    else (s1, [Db (LowerHackTries name);
               Replied (replyData (JObj [
                 ("success", JBool false);
                 ("triesLeft", JNum (triesLeft lanternHack - 1));
                 ("matches",
                  JObj [("amount", JNum (matchesAmount (password correctUser) sent))])]))]).
Proof.
  intros Hhack Hfind Hcond Hlower name lowered s1.
  unfold evaluateGuess. rewrite Hfind, Hcond.
  unfold dbLanternHack_lowerHackTries. rewrite andThen_emit.
  rewrite Hlower, Hhack. fold name lowered s1. cbn [triesLeft lowered withTriesLeft].
  destruct (triesLeft lanternHack - 1 <=? 0); [| reflexivity].
  unfold dbLanternHack_removeLanternHack. rewrite andThen_emit. fold name.
  destruct (faulty env (RemoveLanternHack name)); reflexivity.
Qed.


Lemma evaluateGuess_mismatch_not_success sent boosting user lanternHack correctUser s :
  List.find isCorrect (gameUsers lanternHack) = Some correctUser ->
  (String.eqb (password correctUser) (toLowerCase sent) && (triesLeft lanternHack >? 0))
    = false ->
  successBranchTaken (snd (evaluateGuess env sent boosting user respond lanternHack s)) = false.
Proof.
  intros Hfind Hcond. unfold evaluateGuess. rewrite Hfind, Hcond.
  unfold dbLanternHack_lowerHackTries. rewrite andThen_emit.
  destruct (faulty env (LowerHackTries _)); [reflexivity |].
  destruct (lanternHacks s !! _); [| reflexivity].
  destruct (triesLeft _ <=? 0); [| reflexivity].
  unfold dbLanternHack_removeLanternHack. rewrite andThen_emit.
  destruct (faulty env (RemoveLanternHack _)); reflexivity.
Qed.

(** C2.  The success branch of [manipulateStation] (the signal engine is
    called, a reply says [success: true]) is taken only when the sent
    password, case-folded, is the correct candidate's password and the
    session has [triesLeft > 0]; so for an owner whose session has no try
    left, the exact correct password does not succeed. *)
Theorem manipulateStation_success_guard sent boosting token s :
  successBranchTaken (snd (manipulateStation env sent boosting token respond s)) = true ->
  exists user lanternHack correctUser,
    isUserAllowed env token (hackLanternCommand env) = Answered user
    /\ lanternHacks s !! accountName user = Some lanternHack
    /\ List.find isCorrect (gameUsers lanternHack) = Some correctUser
    /\ password correctUser = toLowerCase sent
    /\ triesLeft lanternHack > 0.
Proof.
  unfold manipulateStation.
  destruct (isValidData env sent boosting); cbn [negb]; [| discriminate].
  unfold authenticator_isUserAllowed. rewrite andThen_emit.
  destruct (isUserAllowed env token (hackLanternCommand env)) as [e | user] eqn:Hauth;
    [discriminate |].
  unfold dbLanternHack_getLanternHack. rewrite andThen_emit.
  destruct (faulty env (GetLanternHack (accountName user))); [discriminate |].
  destruct (lanternHacks s !! accountName user) as [lanternHack |] eqn:Hhack;
    [| discriminate].
  destruct (List.find isCorrect (gameUsers lanternHack)) as [correctUser |] eqn:Hfind.
  - destruct (String.eqb (password correctUser) (toLowerCase sent)
              && (triesLeft lanternHack >? 0)) eqn:Hcond.
    + intros _. apply andb_prop in Hcond as [Hpass Htries].
      exists user, lanternHack, correctUser.
      apply String.eqb_eq in Hpass. apply Z.gtb_lt in Htries.
      repeat split; [assumption .. | lia].
    + cbn [snd]. intros Htaken.
      pose proof (evaluateGuess_mismatch_not_success sent boosting user _ _ s Hfind Hcond) as Hno.
      change (successBranchTaken
                (snd (evaluateGuess env sent boosting user respond lanternHack s)) = true)
        in Htaken.
      congruence.
  - unfold evaluateGuess. rewrite Hfind. discriminate.
Qed.

(** C3.  In the success path (the case-folded password matches and
    [triesLeft > 0]), when the signal engine fails the caller gets the one
    reply [External], the stores are as they were, so the session is still
    there with its tries, and no call took a try or removed the session. *)
Theorem manipulateStation_engine_failure sent boosting token s user lanternHack correctUser
    engineError :
  isValidData env sent boosting = true ->
  isUserAllowed env token (hackLanternCommand env) = Answered user ->
  faulty env (GetLanternHack (accountName user)) = false ->
  lanternHacks s !! accountName user = Some lanternHack ->
  List.find isCorrect (gameUsers lanternHack) = Some correctUser ->
  password correctUser = toLowerCase sent ->
  triesLeft lanternHack > 0 ->
  signalEngineError env s (hackStationId lanternHack) boosting = Some engineError ->
  let run := manipulateStation env sent boosting token respond s in
  replies (snd run) = [replyError (External "wrecking")]
  /\ fst run = s
  /\ lanternHacks (fst run) !! accountName user = Some lanternHack
  /\ forallb (fun call => negb (writesSession call)) (dbCalls (snd run)) = true.
Proof.
  intros Hvalid Hauth Hget Hhack Hfind Hpass Htries Hengine run. subst run.
  rewrite (manipulateStation_loaded _ _ _ _ _ _ Hvalid Hauth Hget Hhack).
  unfold evaluateGuess. rewrite Hfind.
  apply String.eqb_eq in Hpass. rewrite Hpass.
  assert ((triesLeft lanternHack >? 0) = true) as -> by (apply Z.gtb_lt; lia).
  cbn [andb].
  destruct (updateSignalValue_fails env _ _
              (fun reply =>
                 match error reply with
                 | Some _ => respond (replyError (External "wrecking"))
                 | None =>
                     dbLanternHack_removeLanternHack env (accountName user) (fun answer =>
                       match answer with
                       | Failed removeError => respond (replyError removeError)
                       | Answered _ =>
                           respond (replyData (JObj [("success", JBool true);
                                                      ("boostingSignal", JBool boosting)]))
                       end)
                 end) _ _ Hengine) as (calls & Hcalls & ->).
  cbn [error replyError respond emit fst snd replies dbCalls].
  rewrite replies_app, dbCalls_app. cbn [replies dbCalls].
  assert (replies (List.map Db calls) = []) as ->.
  { clear. induction calls; [reflexivity | assumption]. }
  assert (dbCalls (List.map Db calls) = calls) as ->.
  { clear. induction calls as [| c calls IH]; [reflexivity |]. cbn. now rewrite IH. }
  repeat split; [assumption |].
  cbn [forallb writesSession negb andb]. rewrite app_nil_r.
  clear -Hcalls. induction calls as [| c calls IH]; [reflexivity |].
  cbn [forallb] in *. apply andb_prop in Hcalls as [Hc Hrest].
  rewrite (IH Hrest). destruct c; try discriminate; reflexivity.
Qed.

(** C8, as amended.  A failed guess that leaves tries is answered with
    [success: false], the lowered [triesLeft] and [matches.amount], and the
    session stays with the lowered tries; the failed guess that takes the
    last try is answered with [success: false] and the lowered [triesLeft]
    only, without [matches], and the session is removed. *)
Theorem manipulateStation_failed_guess sent boosting token s user lanternHack correctUser :
  isValidData env sent boosting = true ->
  isUserAllowed env token (hackLanternCommand env) = Answered user ->
  faulty env (GetLanternHack (accountName user)) = false ->
  lanternHacks s !! accountName user = Some lanternHack ->
  List.find isCorrect (gameUsers lanternHack) = Some correctUser ->
  password correctUser <> toLowerCase sent \/ triesLeft lanternHack <= 0 ->
  faulty env (LowerHackTries (accountName user)) = false ->
  faulty env (RemoveLanternHack (accountName user)) = false ->
  let run := manipulateStation env sent boosting token respond s in
  let tries := triesLeft lanternHack - 1 in
  (tries > 0 ->
     replies (snd run)
       = [replyData (JObj [("success", JBool false); ("triesLeft", JNum tries);
                           ("matches",
                            JObj [("amount",
                                   JNum (matchesAmount (password correctUser) sent))])])]
     /\ lanternHacks (fst run) !! accountName user = Some (withTriesLeft lanternHack tries))
  /\ (tries <= 0 ->
     replies (snd run)
       = [replyData (JObj [("success", JBool false); ("triesLeft", JNum tries)])]
     /\ lanternHacks (fst run) !! accountName user = None).
Proof.
  intros Hvalid Hauth Hget Hhack Hfind Hmiss Hlower Hremove run tries. subst run.
  rewrite (manipulateStation_loaded _ _ _ _ _ _ Hvalid Hauth Hget Hhack).
  assert ((String.eqb (password correctUser) (toLowerCase sent)
           && (triesLeft lanternHack >? 0)) = false) as Hcond.
  { apply andb_false_iff. destruct Hmiss as [Hne | Hle].
    - left. now apply String.eqb_neq.
    - right. rewrite Z.gtb_ltb. apply Z.ltb_ge. exact Hle. }
  rewrite (evaluateGuess_mismatch _ _ _ _ _ _ Hhack Hfind Hcond Hlower).
  fold tries. rewrite Hremove.
  split; intros Htries.
  - destruct (Z.leb_spec tries 0); [lia |].
    cbn [fst snd replies setLanternHacks lanternHacks].
    split; [reflexivity | apply lookup_insert_eq].
  - destruct (Z.leb_spec tries 0); [| lia].
    cbn [fst snd replies setLanternHacks lanternHacks].
    split; [reflexivity | apply lookup_delete_eq].
Qed.

(** With the correct password and no try left the guess is refused like
    any other: a try is taken and nothing is said of success. *)
Lemma manipulateStation_without_tries sent boosting token s user lanternHack correctUser :
  isValidData env sent boosting = true ->
  isUserAllowed env token (hackLanternCommand env) = Answered user ->
  faulty env (GetLanternHack (accountName user)) = false ->
  lanternHacks s !! accountName user = Some lanternHack ->
  List.find isCorrect (gameUsers lanternHack) = Some correctUser ->
  password correctUser = toLowerCase sent ->
  triesLeft lanternHack <= 0 ->
  let run := manipulateStation env sent boosting token respond s in
  successBranchTaken (snd run) = false
  /\ stations (fst run) = stations s
  /\ In (LowerHackTries (accountName user)) (dbCalls (snd run)).
Proof.
  intros Hvalid Hauth Hget Hhack Hfind _ Htries run. subst run.
  rewrite (manipulateStation_loaded _ _ _ _ _ _ Hvalid Hauth Hget Hhack).
  assert ((String.eqb (password correctUser) (toLowerCase sent)
           && (triesLeft lanternHack >? 0)) = false) as Hcond.
  { apply andb_false_iff. right. rewrite Z.gtb_ltb. apply Z.ltb_ge. exact Htries. }
  split; [| split].
  - apply (evaluateGuess_mismatch_not_success _ _ _ _ _ _ Hfind Hcond).
  - cbn [fst]. unfold evaluateGuess. rewrite Hfind, Hcond.
    unfold dbLanternHack_lowerHackTries. rewrite andThen_emit.
    destruct (faulty env (LowerHackTries _)); [reflexivity |].
    rewrite Hhack. cbn [triesLeft withTriesLeft].
    destruct (_ <=? 0); [| reflexivity].
    unfold dbLanternHack_removeLanternHack. rewrite andThen_emit.
    destruct (faulty env (RemoveLanternHack _)); reflexivity.
  - cbn [snd dbCalls]. right. unfold evaluateGuess. rewrite Hfind, Hcond.
    unfold dbLanternHack_lowerHackTries. rewrite andThen_emit. left. reflexivity.
Qed.
(** X2.  The success path with a telemetry endpoint that answers: the
    callback given to the signal engine runs once, so the session is
    removed once and the caller is answered once; the endpoint's answer
    is not reported. *)
Lemma manipulateStation_answers_once sent boosting token s user lanternHack correctUser
    station response :
  isValidData env sent boosting = true ->
  isUserAllowed env token (hackLanternCommand env) = Answered user ->
  faulty env (GetLanternHack (accountName user)) = false ->
  lanternHacks s !! accountName user = Some lanternHack ->
  List.find isCorrect (gameUsers lanternHack) = Some correctUser ->
  password correctUser = toLowerCase sent ->
  triesLeft lanternHack > 0 ->
  stations s !! hackStationId lanternHack = Some station ->
  signalEngineError env s (hackStationId lanternHack) boosting = None ->
  telemetry env (hackStationId lanternHack)
    (ceilSignalValue (steppedSignalValue (signalValue station) boosting)) = Some response ->
  faulty env (RemoveLanternHack (accountName user)) = false ->
  let run := manipulateStation env sent boosting token respond s in
  replies (snd run)
    = [replyData (JObj [("success", JBool true); ("boostingSignal", JBool boosting)])]
  /\ List.filter writesSession (dbCalls (snd run)) = [RemoveLanternHack (accountName user)]
  /\ existsb isUncaught (snd run) = false
  /\ lanternHacks (fst run) !! accountName user = None.
Proof.
  intros Hvalid Hauth Hget Hhack Hfind Hpass Htries Hst Hengine Hanswer Hremove run.
  subst run.
  rewrite (manipulateStation_loaded _ _ _ _ _ _ Hvalid Hauth Hget Hhack).
  unfold evaluateGuess. rewrite Hfind.
  apply String.eqb_eq in Hpass. rewrite Hpass.
  assert ((triesLeft lanternHack >? 0) = true) as -> by (apply Z.gtb_lt; lia).
  cbn [andb].
  rewrite (updateSignalValue_calls_back _ _ _ _ _ _ Hst Hengine). rewrite Hanswer.
  cbn [error replyData]. unfold dbLanternHack_removeLanternHack.
  rewrite !andThen_emit, Hremove.
  cbn [fst snd respond emit app replies dbCalls List.filter writesSession isEngineCall
       existsb isUncaught orb setLanternHacks setStations lanternHacks stations].
  repeat split. apply lookup_delete_eq.
Qed.
End Guess.

(** ** The decay scheduler *)

Section Decay.

Variable env : Env.

(** One station of a tick: what is written, if anything. *)
Lemma resetStation_run station s :
  resetStation env ignore station s =
    let id := stationId station in
    let old := signalValue station in
    let new := if old >? signalDefault then old - 1 else old + 1 in
    if old =? signalDefault then (s, [])
    else if faulty env (UpdateSignalValue id new)
    then (s, [Db (UpdateSignalValue id new)])
    else match stations s !! id with
         | None => (s, [Db (UpdateSignalValue id new)])
         | Some current =>
             (setStations (<[id := withSignalValue current new]> (stations s)) s,
              [Db (UpdateSignalValue id new);
               HttpPost (hackingApiHost env) "/reports/set_boost" id new (hackingApiKey env)]
              ++ match telemetry env id new with
                 | Some _ => []
                 | None => [Uncaught "Error"]
                 end
              ++ [SetTimeout (signalResetTimeout env)])
         end.
Proof.
  unfold resetStation. cbn zeta.
  destruct (signalValue station =? signalDefault); cbn [negb]; [reflexivity |].
  unfold dbLanternHack_updateSignalValue. rewrite andThen_emit.
  destruct (faulty env _); [reflexivity |].
  destruct (stations s !! stationId station); [| reflexivity].
  unfold postRequest, responseOnEnd. destruct (telemetry env _ _); reflexivity.
Qed.

Lemma resetStation_other station s id :
  stationId station <> id ->
  stations (fst (resetStation env ignore station s)) !! id = stations s !! id.
Proof.
  intros Hne. rewrite resetStation_run. cbn zeta.
  destruct (_ =? _); [reflexivity |].
  destruct (faulty env _); [reflexivity |].
  destruct (stations s !! stationId station); [| reflexivity].
  cbn [fst setStations stations]. now apply lookup_insert_ne.
Qed.

Lemma forEach_resetStation_other l s id :
  Forall (fun station => stationId station <> id) l ->
  stations (fst (forEach l (resetStation env ignore) s)) !! id = stations s !! id.
Proof.
  intros Hall. revert s. induction Hall as [| station l Hne _ IH]; intros s; [reflexivity |].
  cbn [forEach]. unfold andThen.
  destruct (resetStation env ignore station s) as [s1 e1] eqn:Hstep.
  specialize (IH s1). destruct (forEach l _ s1) as [s2 e2]. cbn [fst] in *.
  rewrite IH. replace s1 with (fst (resetStation env ignore station s)) by now rewrite Hstep.
  now apply resetStation_other.
Qed.

Lemma forEach_resetStation_at l s station current :
  NoDup (List.map stationId l) ->
  In station l ->
  stations s !! stationId station = Some current ->
  (forall value, faulty env (UpdateSignalValue (stationId station) value) = false) ->
  stations (fst (forEach l (resetStation env ignore) s)) !! stationId station
    = Some (withSignalValue current (decayed (signalValue station)))
    \/ (signalValue station = signalDefault
        /\ stations (fst (forEach l (resetStation env ignore) s)) !! stationId station
           = Some current).
Proof.
  intros Hnodup Hin. revert s. induction l as [| head l IH]; intros s Hcur Hok; [destruct Hin |].
  cbn [List.map] in Hnodup. apply NoDup_cons in Hnodup as [Hfresh Hnodup].
  cbn [forEach]. unfold andThen.
  destruct (resetStation env ignore head s) as [s1 e1] eqn:Hstep.
  destruct (forEach l _ s1) as [s2 e2] eqn:Hrest. cbn [fst].
  replace s2 with (fst (forEach l (resetStation env ignore) s1)) by now rewrite Hrest.
  destruct Hin as [-> | Hin].
  - assert (Forall (fun other => stationId other <> stationId station) l) as Hothers.
    { apply List.Forall_forall. intros other Hother Heq. apply Hfresh.
      rewrite <- Heq. apply list_elem_of_In, in_map_iff. now exists other. }
    rewrite (forEach_resetStation_other _ _ _ Hothers).
    replace s1 with (fst (resetStation env ignore station s)) by now rewrite Hstep.
    rewrite resetStation_run. cbn zeta. unfold decayed.
    destruct (signalValue station =? signalDefault) eqn:Hat.
    + right. split; [now apply Z.eqb_eq | exact Hcur].
    + left. rewrite Hok, Hcur. cbn [fst setStations stations]. apply lookup_insert_eq.
  - assert (stationId head <> stationId station) as Hne.
    { intros Heq. apply Hfresh. rewrite Heq. apply list_elem_of_In, in_map_iff.
      now exists station. }
    apply (IH Hnodup Hin); [| exact Hok].
    replace s1 with (fst (resetStation env ignore head s)) by now rewrite Hstep.
    rewrite resetStation_other by exact Hne. exact Hcur.
Qed.

Lemma stationsKeyed_listing s :
  stationsKeyed s ->
  List.map stationId (List.map snd (map_to_list (stations s)))
    = List.map fst (map_to_list (stations s)).
Proof.
  intros Hkeyed. rewrite List.map_map. apply List.map_ext_in.
  intros [id station] Hin. cbn [fst snd].
  apply list_elem_of_In, elem_of_map_to_list in Hin.
  exact (map_Forall_lookup_1 _ _ _ _ Hkeyed Hin).
Qed.

(** C6.  After a decay tick whose load and write succeed, a station off
    the baseline holds its former signal value moved by exactly one toward
    the baseline (one less if it was above, one more if it was below) and
    not past it; its other fields are as before, and a station that was at
    the baseline is left as it was. *)
Theorem resetStations_moves_toward_baseline s id station :
  stationsKeyed s ->
  stations s !! id = Some station ->
  faulty env GetAllStations = false ->
  (forall value, faulty env (UpdateSignalValue id value) = false) ->
  exists station',
    stations (fst (resetStations env ignore s)) !! id = Some station'
    /\ movedTowardBaseline (signalValue station) (signalValue station')
    /\ stationId station' = stationId station
    /\ isActive station' = isActive station
    /\ (signalValue station = signalDefault -> station' = station).
Proof.
  intros Hkeyed Hst Hload Hwrite.
  pose proof (map_Forall_lookup_1 _ _ _ _ Hkeyed Hst) as Hid. cbn beta in Hid.
  unfold resetStations, dbLanternHack_getAllStations. rewrite andThen_emit, Hload. cbn [fst].
  assert (NoDup (List.map stationId (List.map snd (map_to_list (stations s))))) as Hnodup.
  { rewrite stationsKeyed_listing by assumption. apply NoDup_fst_map_to_list. }
  assert (In station (List.map snd (map_to_list (stations s)))) as Hin.
  { apply in_map_iff. exists (id, station). split; [reflexivity |].
    apply list_elem_of_In, elem_of_map_to_list. exact Hst. }
  rewrite <- Hid in Hst, Hwrite |- *.
  destruct (forEach_resetStation_at _ s station station Hnodup Hin Hst Hwrite)
    as [-> | [Hat ->]].
  - eexists. split; [reflexivity |]. cbn [signalValue stationId isActive withSignalValue].
    unfold movedTowardBaseline, decayed, signalDefault.
    destruct (Z.eqb_spec (signalValue station) 100) as [Heq | Hne].
    + repeat split; try lia. intros _. destruct station; cbn in *. now subst.
    + destruct (Z.gtb_spec (signalValue station) 100); repeat split; lia.
  - exists station. unfold movedTowardBaseline. repeat split; lia.
Qed.


(** Each station off the baseline whose write succeeds sets a timer of
    its own; a tick sets as many timers as it adjusted stations. *)
Lemma resetStation_keeps station s id :
  is_Some (stations s !! id) ->
  is_Some (stations (fst (resetStation env ignore station s)) !! id).
Proof.
  intros Hsome. rewrite resetStation_run. cbn zeta.
  destruct (_ =? _); [exact Hsome |].
  destruct (faulty env _); [exact Hsome |].
  destruct (stations s !! stationId station) eqn:Hcur; [| exact Hsome].
  cbn [fst setStations stations].
  destruct (decide (stationId station = id)) as [-> | Hne].
  - rewrite lookup_insert_eq. eauto.
  - now rewrite lookup_insert_ne.
Qed.

Lemma forEach_resetStation_timers l s :
  (forall call, faulty env call = false) ->
  Forall (fun station => is_Some (stations s !! stationId station)) l ->
  timersSet (snd (forEach l (resetStation env ignore) s))
    = length (List.filter needsReset l).
Proof.
  intros Hok. revert s. induction l as [| station l IH]; intros s Hall; [reflexivity |].
  apply Forall_cons in Hall as [Hhere Hall].
  cbn [forEach List.filter]. unfold andThen.
  destruct (resetStation env ignore station s) as [s1 e1] eqn:Hstep.
  assert (Forall (fun other => is_Some (stations s1 !! stationId other)) l) as Hall1.
  { replace s1 with (fst (resetStation env ignore station s)) by now rewrite Hstep.
    eapply Forall_impl; [exact Hall |]. intros other. apply resetStation_keeps. }
  specialize (IH s1 Hall1). destruct (forEach l _ s1) as [s2 e2]. cbn [snd] in *.
  rewrite timersSet_app, IH.
  replace e1 with (snd (resetStation env ignore station s)) by now rewrite Hstep.
  rewrite resetStation_run. cbn zeta. unfold needsReset.
  destruct (signalValue station =? signalDefault); cbn [negb]; [reflexivity |].
  rewrite Hok. destruct Hhere as [current ->]. destruct (telemetry env _ _); reflexivity.
Qed.

(** X3.  With a store that does not fail, a decay tick sets as many
    timers as there are stations off the baseline. *)
Lemma resetStations_timers s :
  (forall call, faulty env call = false) ->
  stationsKeyed s ->
  timersSet (snd (resetStations env ignore s))
    = length (List.filter needsReset (List.map snd (map_to_list (stations s)))).
Proof.
  intros Hok Hkeyed.
  unfold resetStations, dbLanternHack_getAllStations. rewrite andThen_emit, Hok.
  cbn [snd timersSet]. apply forEach_resetStation_timers; [exact Hok |].
  apply List.Forall_forall. intros station Hin.
  apply in_map_iff in Hin as ([id station'] & <- & Hin). cbn [snd].
  apply list_elem_of_In, elem_of_map_to_list in Hin.
  rewrite (map_Forall_lookup_1 _ _ _ _ Hkeyed Hin). eauto.
Qed.

End Decay.

(** ** The challenge payload *)

Section Challenge.

Variable env : Env.

Lemma mentionsKey_strings key (l : list string) :
  existsb (mentionsKey key) (List.map JStr l) = false.
Proof. induction l as [| x l IH]; [reflexivity | exact IH]. Qed.

(** C9, as amended.  For a session with a correct candidate, the payload
    [createHackData] sends has the six properties [passwords], [triesLeft],
    [userName], [passwordType], [passwordHint] and [stationId] and no
    property named [isCorrect] at any depth; [passwords] is at most 13
    passwords of the shuffled decoy pool followed by the passwords of the
    session's candidates in their stored order, which are not shuffled
    in; and the [userName], [passwordType] and [passwordHint] it shows
    are those of a candidate of the session that is marked correct. *)
Theorem createHackData_payload lanternHack s correctUser :
  faulty env GetAllFakePasswords = false ->
  List.find isCorrect (gameUsers lanternHack) = Some correctUser ->
  (forall passwords, Permutation (shuffleArray env passwords) passwords) ->
  exists payload decoys,
    createHackData env lanternHack respond s
      = (s, [Db GetAllFakePasswords; Replied (replyData (JObj payload))])
    /\ mentionsKey "isCorrect" (JObj payload) = false
    /\ List.map fst payload
       = ["passwords"; "triesLeft"; "userName"; "passwordType"; "passwordHint"; "stationId"]
    /\ lookupField "passwords" payload
       = Some (JArr (List.map JStr (decoys ++ List.map password (gameUsers lanternHack))))
    /\ decoys = firstn 13 (shuffleArray env (List.map fakePassword (fakePasswords s)))
    /\ (length decoys <= 13)%nat
    /\ (forall decoy, In decoy decoys -> In decoy (List.map fakePassword (fakePasswords s)))
    /\ In correctUser (gameUsers lanternHack)
    /\ isCorrect correctUser = true
    /\ lookupField "userName" payload = Some (JStr (userName correctUser))
    /\ lookupField "passwordType" payload = Some (JStr (passwordType correctUser))
    /\ lookupField "passwordHint" payload
       = Some (JObj [("index", JNum (index (passwordHint correctUser)));
                     ("character", JStr (character (passwordHint correctUser)))])
    /\ lookupField "triesLeft" payload = Some (JNum (triesLeft lanternHack))
    /\ lookupField "stationId" payload = Some (JNum (hackStationId lanternHack)).
Proof.
  intros Hload Hfind Hshuffle.
  unfold createHackData, dbLanternHack_getAllFakePasswords.
  rewrite andThen_emit, Hload, Hfind.
  eexists. exists (firstn 13 (shuffleArray env (List.map fakePassword (fakePasswords s)))).
  split; [reflexivity |].
  split.
  { cbn [mentionsKey existsb fst snd]. rewrite mentionsKey_strings. reflexivity. }
  do 3 (split; [reflexivity |]).
  split; [apply List.firstn_le_length |].
  split.
  { intros decoy Hin. apply (Permutation_in _ (Hshuffle _)).
    rewrite <- (List.firstn_skipn 13). apply in_or_app. now left. }
  apply List.find_some in Hfind as [Hin Hcorrect].
  repeat split; assumption || reflexivity.
Qed.

End Challenge.

(** ** The matches count *)

Section Matches.

Lemma indexOfFrom_range from c l :
  indexOfFrom from c l = -1 \/ from <= indexOfFrom from c l.
Proof.
  revert from. induction l as [| x l IH]; intros from; [now left |].
  cbn [indexOfFrom]. destruct (Ascii.eqb x c); [right; lia |].
  destruct (IH (from + 1)) as [-> | Hle]; [now left | right; lia].
Qed.

(** In a list without repeated characters [indexOf] is the position. *)
Lemma indexOfFrom_lookup from c (l : list ascii) (i : nat) :
  NoDup l -> l !! i = Some c -> indexOfFrom from c l = from + Z.of_nat i.
Proof.
  intros Hnodup. revert from i. induction Hnodup as [| x l Hfresh _ IH]; intros from i Hi.
  - discriminate.
  - cbn [indexOfFrom]. destruct i as [| i]; cbn in Hi.
    + injection Hi as ->. rewrite Ascii.eqb_refl. lia.
    + destruct (Ascii.eqb_spec x c) as [-> | _].
      * exfalso. apply Hfresh. eapply list_elem_of_lookup_2. exact Hi.
      * rewrite (IH _ _ Hi). lia.
Qed.

Lemma indexOfFrom_found from c (l : list ascii) (i : nat) :
  0 <= from -> indexOfFrom from c l = from + Z.of_nat i -> l !! i = Some c.
Proof.
  revert from i. induction l as [| x l IH]; intros from i Hfrom; cbn [indexOfFrom].
  - lia.
  - destruct (Ascii.eqb_spec x c) as [-> | _].
    + intros Hi. assert (i = 0%nat) as -> by lia. reflexivity.
    + intros Hi. destruct i as [| i].
      * destruct (indexOfFrom_range (from + 1) c l); lia.
      * cbn. apply (IH (from + 1)); lia.
Qed.

Lemma positionalMatches_nil_r guess : positionalMatches guess [] = 0.
Proof. destruct guess; reflexivity. Qed.

Lemma filter_positional (guess correct : list ascii) :
  NoDup guess -> NoDup correct ->
  forall (k : nat) (rest : list ascii),
    drop k guess = rest ->
    Z.of_nat (length (List.filter
       (fun char => indexOfFrom 0 char correct =? indexOfFrom 0 char guess) rest))
    = positionalMatches rest (drop k correct).
Proof.
  intros Hguess Hcorrect k rest. revert k.
  induction rest as [| char rest IH]; intros k Hdrop; [reflexivity |].
  assert (guess !! k = Some char) as Hk.
  { rewrite <- (Nat.add_0_r k), <- lookup_drop, Hdrop. reflexivity. }
  assert (drop (S k) guess = rest) as Hnext.
  { rewrite (drop_S _ _ _ Hk) in Hdrop. now injection Hdrop. }
  specialize (IH (S k) Hnext).
  cbn [List.filter]. rewrite (indexOfFrom_lookup 0 _ _ _ Hguess Hk).
  destruct (correct !! k) as [x |] eqn:Hx.
  - rewrite (drop_S _ _ _ Hx). cbn [positionalMatches]. rewrite <- IH.
    destruct (Ascii.eqb_spec char x) as [<- | Hne].
    + rewrite (indexOfFrom_lookup 0 _ _ _ Hcorrect Hx), Z.eqb_refl. cbn [length]. lia.
    + destruct (Z.eqb_spec (indexOfFrom 0 char correct) (0 + Z.of_nat k)) as [Heq | _];
        [| lia].
      apply indexOfFrom_found in Heq; [congruence | lia].
  - rewrite (drop_ge correct k) by (now apply lookup_ge_None).
    rewrite (drop_ge correct (S k)) in IH by (apply lookup_ge_None in Hx; lia).
    rewrite positionalMatches_nil_r in *.
    destruct (Z.eqb_spec (indexOfFrom 0 char correct) (0 + Z.of_nat k)) as [Heq | _];
      [| exact IH].
    apply indexOfFrom_found in Heq; [congruence | lia].
Qed.

(** X4.  Where neither the case-folded guess nor the correct password repeats
    a character, the reported amount is the positional count. *)
Lemma matchesAmount_positional (correct sent : string) :
  NoDup (list_ascii_of_string (toLowerCase sent)) ->
  NoDup (list_ascii_of_string correct) ->
  matchesAmount correct sent
  = positionalMatches (list_ascii_of_string (toLowerCase sent)) (list_ascii_of_string correct).
Proof.
  intros Hsent Hcorrect. unfold matchesAmount, stringIndexOf, arrayIndexOf.
  apply (filter_positional _ _ Hsent Hcorrect 0%nat). reflexivity.
Qed.

End Matches.

(** ** Concrete runs of the manager *)

Section Runs.

Import Sample.

(** C1, at inputs where the code departs from it.  The correct password
    is "apple"; the guess "PAPER", case-folded, has "p" in the third place
    as "apple" has, so one position agrees, and the reply says
    [matches.amount] is 0: the filter compares the first index of each
    character in the password with its first index in the guess, and "p"
    is first found at index 1 in one and at index 0 in the other.  With
    the guess "aab" against "abc" the filter lets both "a" pass where one
    position agrees. *)
Theorem manipulateStation_miscounts_repeated_letters :
  replies (snd (manipulateStation env "PAPER" true "bob" respond (store [(1, 100)] 3)))
    = [replyData (JObj [("success", JBool false); ("triesLeft", JNum 2);
                        ("matches", JObj [("amount", JNum 0)])])]
  /\ positionalMatches (list_ascii_of_string (toLowerCase "PAPER"))
                       (list_ascii_of_string "apple") = 1
  /\ matchesAmount "abc" "aab" = 2
  /\ positionalMatches (list_ascii_of_string "aab") (list_ascii_of_string "abc") = 1.
Proof. vm_compute. repeat split; reflexivity. Qed.

(** The example of the description: "abcee" against "abxyz" gives 2. *)
Example matchesAmount_abcee_abxyz :
  matchesAmount "abcee" "abxyz" = 2
  /\ positionalMatches (list_ascii_of_string "abxyz") (list_ascii_of_string "abcee") = 2.
Proof. vm_compute. split; reflexivity. Qed.

Lemma manipulateStation_success_guard_witness :
  exists user lanternHack correctUser,
    isUserAllowed env "bob" (hackLanternCommand env) = Answered user
    /\ lanternHacks (store [(1, 100)] 3) !! accountName user = Some lanternHack
    /\ List.find isCorrect (gameUsers lanternHack) = Some correctUser
    /\ password correctUser = toLowerCase "APPLE"
    /\ triesLeft lanternHack > 0.
Proof.
  apply (manipulateStation_success_guard env "APPLE" true "bob" (store [(1, 100)] 3)).
  vm_compute. reflexivity.
Defined.

Lemma manipulateStation_engine_failure_witness :
  let run := manipulateStation envWriteFails "Apple" true "bob" respond (store [(1, 100)] 3) in
  replies (snd run) = [replyError (External "wrecking")]
  /\ fst run = store [(1, 100)] 3
  /\ lanternHacks (fst run) !! "bob" = Some (lanternHack 3)
  /\ forallb (fun call => negb (writesSession call)) (dbCalls (snd run)) = true.
Proof.
  apply (manipulateStation_engine_failure envWriteFails "Apple" true "bob"
           (store [(1, 100)] 3) {| accountName := "bob" |} (lanternHack 3)
           (gameUser "ada" "apple" "A" true) (Database "station"));
    solve [reflexivity | vm_compute; reflexivity | lia].
Defined.

Lemma updateSignalValue_persists_within_bounds_witness :
  let computed := steppedSignalValue 107 true in
  exists station',
    stations (fst (updateSignalValue env 1 true respond (store [(1, 107)] 3))) !! 1
      = Some station'
    /\ signalValue station'
       = Z.max (signalDefault - signalThreshold)
               (Z.min (signalDefault + signalThreshold) (Qceiling computed))
    /\ (inject_Z (Qceiling computed - 1) < computed <= inject_Z (Qceiling computed))%Q
    /\ signalDefault - signalThreshold <= signalValue station'
       <= signalDefault + signalThreshold.
Proof.
  apply (updateSignalValue_persists_within_bounds env 1 true (store [(1, 107)] 3)
           (station 1 107)); vm_compute; reflexivity.
Defined.

Lemma updateSignalValue_applies_step_witness :
  dbCalls (snd (updateSignalValue env 1 false respond (store [(1, 107)] 3)))
    = [GetStation 1; UpdateSignalValue 1 97]
  /\ stations (fst (updateSignalValue env 1 false respond (store [(1, 107)] 3))) !! 1
     = Some (station 1 97).
Proof.
  apply (updateSignalValue_applies_step env 1 false (store [(1, 107)] 3) (station 1 107));
    vm_compute; reflexivity.
Defined.

(** C10, at an input where the code departs from it.  Station 1 stands
    at 107, the write of the new value succeeds and the telemetry
    endpoint answers 200.  The callback runs once, with
    [{ success: true }]: the response is never consumed, the listener for
    ['end'] never runs, and [{ response }] is not reported.  The caller
    of [manipulateStation] is answered once and the session is removed
    once. *)
Theorem updateSignalValue_calls_back_once :
  telemetry env 1 116 = Some 200
  /\ snd (updateSignalValue env 1 true respond (store [(1, 107)] 3))
     = [Db (GetStation 1); Db (UpdateSignalValue 1 116);
        Replied (replyData (JObj [("success", JBool true)]));
        HttpPost "hacking.example" "/reports/set_boost" 1 116 "key"]
  /\ replies (snd (manipulateStation env "APPLE" true "bob" respond (store [(1, 107)] 3)))
     = [replyData (JObj [("success", JBool true); ("boostingSignal", JBool true)])]
  /\ List.filter writesSession
       (dbCalls (snd (manipulateStation env "APPLE" true "bob" respond (store [(1, 107)] 3))))
     = [RemoveLanternHack "bob"].
Proof. vm_compute. repeat split; reflexivity. Qed.

Lemma resetStations_moves_toward_baseline_witness :
  exists station',
    stations (fst (resetStations env ignore (store [(1, 107); (2, 100)] 3))) !! 1
      = Some station'
    /\ movedTowardBaseline 107 (signalValue station')
    /\ stationId station' = 1
    /\ isActive station' = true
    /\ (107 = signalDefault -> station' = station 1 107).
Proof.
  apply (resetStations_moves_toward_baseline env (store [(1, 107); (2, 100)] 3) 1
           (station 1 107)).
  - apply map_Forall_lookup_2. intros id found.
    unfold store. cbn [stations List.map list_to_map fst snd foldr].
    intros Hfound. apply lookup_insert_Some in Hfound as [[<- <-] | [_ Hfound]];
      [reflexivity |].
    apply lookup_insert_Some in Hfound as [[<- <-] | [_ Hfound]]; [reflexivity |].
    rewrite lookup_empty in Hfound. discriminate.
  - reflexivity.
  - reflexivity.
  - intros value. reflexivity.
Defined.

(** C7, at inputs where the code departs from it.  [setTimeout] runs in
    the callback of each station's write, so a tick sets one timer for
    each station it adjusted and not one timer for the tick: none when
    every station is at the baseline or there is no station, and then no
    further tick ever runs; two when two stations are off the baseline
    (see [resetStations_timers] for the count in general). *)
Theorem resetStations_sets_timer_per_station :
  timersSet (snd (resetStations env ignore (store [(1, 100); (2, 100)] 3))) = 0%nat
  /\ timersSet (snd (resetStations env ignore (store [] 3))) = 0%nat
  /\ timersSet (snd (resetStations env ignore (store [(1, 107); (2, 93)] 3))) = 2%nat.
Proof. vm_compute. repeat split; reflexivity. Qed.

(** C8 as stated fails: the failed guess that takes the last try is
    answered with [success: false] and [triesLeft: 0] and no [matches],
    and the session is removed. *)
Lemma manipulateStation_last_try_without_matches :
  replies (snd (manipulateStation env "grape" true "bob" respond (store [(1, 100)] 1)))
    = [replyData (JObj [("success", JBool false); ("triesLeft", JNum 0)])]
  /\ forallb reportsFailureWithMatches
       (replies (snd (manipulateStation env "grape" true "bob" respond (store [(1, 100)] 1))))
     = false
  /\ lanternHacks (fst (manipulateStation env "grape" true "bob" respond (store [(1, 100)] 1)))
       !! "bob" = None.
Proof. vm_compute. repeat split; reflexivity. Qed.

Lemma manipulateStation_failed_guess_witness :
  let run := manipulateStation env "grape" true "bob" respond (store [(1, 100)] 3) in
  let tries := triesLeft (lanternHack 3) - 1 in
  (tries > 0 ->
     replies (snd run)
       = [replyData (JObj [("success", JBool false); ("triesLeft", JNum tries);
                           ("matches",
                            JObj [("amount", JNum (matchesAmount "apple" "grape"))])])]
     /\ lanternHacks (fst run) !! "bob" = Some (withTriesLeft (lanternHack 3) tries))
  /\ (tries <= 0 ->
     replies (snd run)
       = [replyData (JObj [("success", JBool false); ("triesLeft", JNum tries)])]
     /\ lanternHacks (fst run) !! "bob" = None).
Proof.
  apply (manipulateStation_failed_guess env "grape" true "bob" (store [(1, 100)] 3)
           {| accountName := "bob" |} (lanternHack 3) (gameUser "ada" "apple" "A" true));
    solve [reflexivity | vm_compute; reflexivity | left; discriminate].
Defined.

Lemma createHackData_payload_witness :
  exists payload decoys,
    createHackData env (lanternHack 3) respond (store [(1, 100)] 3)
      = (store [(1, 100)] 3, [Db GetAllFakePasswords; Replied (replyData (JObj payload))])
    /\ mentionsKey "isCorrect" (JObj payload) = false
    /\ decoys = ["peach"; "lemon"; "melon"]
    /\ lookupField "passwords" payload
       = Some (JArr (List.map JStr (decoys ++ ["apple"; "grape"])))
    /\ lookupField "userName" payload = Some (JStr "ada").
Proof.
  destruct (createHackData_payload env (lanternHack 3) (store [(1, 100)] 3)
              (gameUser "ada" "apple" "A" true))
    as (payload & decoys & Hrun & Hkey & _ & Hpasswords & Hdecoys & _ & _ & _ & _ & Hname & _).
  - reflexivity.
  - reflexivity.
  - intros passwords. symmetry. apply Permutation_rev.
  - exists payload, decoys. repeat split; assumption.
Defined.

(** C9 as stated fails: only the decoys are shuffled.  With a shuffle that
    reverses, the decoys come reversed and the candidates' passwords
    follow in stored order, which is not the shuffle of the merged list;
    with a shuffle that keeps the order the candidates' passwords stand
    at the same places.  The correct password is the one right after the
    decoys either way. *)
Lemma createHackData_candidates_not_shuffled :
  let s := store [(1, 100)] 3 in
  passwordsSent (snd (createHackData env (lanternHack 3) respond s))
    = Some (JArr (List.map JStr ["peach"; "lemon"; "melon"; "apple"; "grape"]))
  /\ specMergedPasswords env (fakePasswords s) (lanternHack 3)
     = ["grape"; "apple"; "peach"; "lemon"; "melon"]
  /\ passwordsSent (snd (createHackData env (lanternHack 3) respond s))
     <> Some (JArr (List.map JStr
                      (specMergedPasswords env (fakePasswords s) (lanternHack 3))))
  /\ passwordsSent (snd (createHackData envKeepsOrder (lanternHack 3) respond s))
     = Some (JArr (List.map JStr ["melon"; "lemon"; "peach"; "apple"; "grape"])).
Proof. vm_compute. repeat split; try reflexivity. discriminate. Qed.

End Runs.

(** * Further properties *)

(** ** The step of the signal engine *)

Section SignalStep.

Lemma ceilSignalValue_step (signalValue : Z) (boosting : bool) :
  signalDefault - signalThreshold <= signalValue <= signalDefault + signalThreshold ->
  let new := ceilSignalValue (steppedSignalValue signalValue boosting) in
  if boosting
  then signalValue <= new <= signalValue + signalMaxChange
       /\ new <= signalDefault + signalThreshold
       /\ (signalValue < signalDefault + signalThreshold -> signalValue < new)
  else signalValue - signalMaxChange <= new <= signalValue
       /\ signalDefault - signalThreshold <= new
       /\ Z.min signalValue 54 <= new
       /\ (54 < signalValue -> new < signalValue)
       /\ (signalValue <= 54 -> new = signalValue).
Proof.
  intros Hrange. cbv zeta. rewrite ceilSignalValue_clamp.
  unfold signalDefault, signalThreshold, signalMaxChange in Hrange |- *.
  pose proof (Qle_ceiling (steppedSignalValue signalValue boosting)) as Hup.
  pose proof (Qceiling_lt (steppedSignalValue signalValue boosting)) as Hlow.
  set (c := Qceiling (steppedSignalValue signalValue boosting)) in *.
  clearbody c.
  unfold steppedSignalValue, signalChange, changePercentage, signalMaxChange,
    signalDefault, signalThreshold in Hup, Hlow.
  destruct boosting; cbn [andb negb] in Hup, Hlow.
  - destruct (Z.ltb_spec signalValue 100);
      unfold Qle, Qlt, Qplus, Qmult, inject_Z in Hup, Hlow;
      cbn [Qnum Qden] in Hup, Hlow; lia.
  - destruct (Z.gtb_spec signalValue 100);
      unfold Qle, Qlt, Qplus, Qmult, Qopp, Qabs, inject_Z in Hup, Hlow;
      cbn [Qnum Qden] in Hup, Hlow; lia.
Qed.


Variable env : Env.

(** X5.  Boosting a station that is within bounds raises its stored signal
    value, by at least 1 unless it is at the upper bound and by at most
    [signalMaxChange], and not past the upper bound. *)
Theorem updateSignalValue_boost_raises id s station :
  stations s !! id = Some station ->
  signalEngineError env s id true = None ->
  signalDefault - signalThreshold <= signalValue station
    <= signalDefault + signalThreshold ->
  exists station',
    stations (fst (updateSignalValue env id true respond s)) !! id = Some station'
    /\ signalValue station <= signalValue station'
       <= Z.min (signalValue station + signalMaxChange) (signalDefault + signalThreshold)
    /\ (signalValue station < signalDefault + signalThreshold ->
        signalValue station < signalValue station').
Proof.
  intros Hst Hok Hrange.
  rewrite (updateSignalValue_responds _ _ _ _ _ Hst Hok).
  eexists. split; [apply lookup_insert_eq |].
  cbn [signalValue withSignalValue].
  pose proof (ceilSignalValue_step (signalValue station) true Hrange) as Hstep.
  cbv zeta in Hstep. cbn iota in Hstep. lia.
Qed.

(** X6.  Cutting a station that is within bounds never raises its stored
    signal value and lowers it by at most [signalMaxChange]; as the result
    is rounded up, a station at 54 or less is left where it is, and no
    cut brings a station from 54 or more below 54: the lower bound
    [signalDefault - signalThreshold] is not reached by cutting. *)
Theorem updateSignalValue_cut_lowers id s station :
  stations s !! id = Some station ->
  signalEngineError env s id false = None ->
  signalDefault - signalThreshold <= signalValue station
    <= signalDefault + signalThreshold ->
  exists station',
    stations (fst (updateSignalValue env id false respond s)) !! id = Some station'
    /\ signalValue station - signalMaxChange <= signalValue station'
       <= signalValue station
    /\ Z.min (signalValue station) 54 <= signalValue station'
    /\ (54 < signalValue station -> signalValue station' < signalValue station)
    /\ (signalValue station <= 54 -> signalValue station' = signalValue station).
Proof.
  intros Hst Hok Hrange.
  rewrite (updateSignalValue_responds _ _ _ _ _ Hst Hok).
  eexists. split; [apply lookup_insert_eq |].
  cbn [signalValue withSignalValue].
  pose proof (ceilSignalValue_step (signalValue station) false Hrange) as Hstep.
  cbv zeta in Hstep. cbn iota in Hstep. lia.
Qed.

(** X7.  When the station cannot be read or the new value cannot be written,
    the callback runs once, with that error; nothing is posted to the
    telemetry endpoint and the stores are as they were. *)
Theorem updateSignalValue_failure id boosting s engineError :
  signalEngineError env s id boosting = Some engineError ->
  let run := updateSignalValue env id boosting respond s in
  fst run = s
  /\ replies (snd run) = [replyError engineError]
  /\ Forall (fun event => match event with HttpPost _ _ _ _ _ => False | _ => True end)
            (snd run).
Proof.
  intros Hengine.
  destruct (updateSignalValue_fails env id boosting respond s engineError Hengine)
    as (calls & Hcalls & Hrun).
  cbv zeta. rewrite Hrun. cbn [respond emit fst snd].
  split; [reflexivity |]. split.
  - rewrite replies_app. cbn [replies].
    replace (replies (List.map Db calls)) with (@nil Reply); [reflexivity |].
    clear. induction calls; [reflexivity | assumption].
  - apply Forall_app. split; [| repeat constructor].
    clear. induction calls; constructor; [exact I | assumption].
Qed.

End SignalStep.

(** ** Decay ticks, one after another *)

Section DecayTicks.

Variable env : Env.

Lemma withSignalValue_twice station a b :
  withSignalValue (withSignalValue station a) b = withSignalValue station b.
Proof. reflexivity. Qed.

Lemma withSignalValue_same station :
  withSignalValue station (signalValue station) = station.
Proof. destruct station; reflexivity. Qed.

(** What a tick over the stations [l] leaves under a key: the record as
    it was, or that record with the decayed value of a station of [l]
    filed under this key. *)
Lemma forEach_resetStation_lookup l s id :
  stations (fst (forEach l (resetStation env ignore) s)) !! id = stations s !! id
  \/ exists current station,
       stations s !! id = Some current
       /\ In station l
       /\ stationId station = id
       /\ stations (fst (forEach l (resetStation env ignore) s)) !! id
          = Some (withSignalValue current (decayed (signalValue station))).
Proof.
  revert s. induction l as [| head l IH]; intros s; [now left |].
  cbn [forEach]. unfold andThen.
  destruct (resetStation env ignore head s) as [s1 e1] eqn:Hstep.
  specialize (IH s1). destruct (forEach l _ s1) as [s2 e2]. cbn [fst] in *.
  assert (stations s1 !! id = stations s !! id
          \/ exists current,
               stations s !! id = Some current /\ stationId head = id
               /\ stations s1 !! id
                  = Some (withSignalValue current (decayed (signalValue head)))) as Hhead.
  { replace s1 with (fst (resetStation env ignore head s)) by now rewrite Hstep.
    rewrite resetStation_run. cbn zeta. unfold decayed.
    destruct (signalValue head =? signalDefault); [now left |].
    destruct (faulty env _); [now left |].
    destruct (stations s !! stationId head) as [current |] eqn:Hcur; [| now left].
    cbn [fst setStations stations].
    destruct (decide (stationId head = id)) as [<- | Hne].
    - right. exists current. rewrite lookup_insert_eq. auto.
    - left. now apply lookup_insert_ne. }
  destruct IH as [Hsame | (current1 & station & Hcur1 & Hin & Hid & Hafter)].
  - rewrite Hsame. destruct Hhead as [Hkeep | (current & Hcur & Hid & Hnew)]; [now left |].
    right. exists current, head. repeat split; [assumption | now left | assumption ..].
  - right. destruct Hhead as [Hkeep | (current & Hcur & _ & Hnew)].
    + exists current1, station. rewrite <- Hkeep.
      repeat split; [assumption | now right | assumption ..].
    + exists current, station. rewrite Hnew in Hcur1. injection Hcur1 as <-.
      rewrite withSignalValue_twice in Hafter.
      repeat split; [assumption | now right | assumption ..].
Qed.

Lemma resetStations_lookup s id :
  stations (fst (resetStations env ignore s)) !! id = stations s !! id
  \/ exists current key station,
       stations s !! id = Some current
       /\ stations s !! key = Some station
       /\ stationId station = id
       /\ stations (fst (resetStations env ignore s)) !! id
          = Some (withSignalValue current (decayed (signalValue station))).
Proof.
  unfold resetStations, dbLanternHack_getAllStations. rewrite andThen_emit. cbn [fst].
  destruct (faulty env GetAllStations); [now left |].
  destruct (forEach_resetStation_lookup (List.map snd (map_to_list (stations s))) s id)
    as [Hsame | (current & station & Hcur & Hin & Hid & Hafter)]; [now left |].
  right. apply in_map_iff in Hin as ([key station'] & Heq & Hin). cbn [snd] in Heq. subst.
  apply list_elem_of_In, elem_of_map_to_list in Hin.
  exists current, key, station. auto.
Qed.

Lemma decayed_within_bounds old :
  signalDefault - signalThreshold <= old <= signalDefault + signalThreshold ->
  signalDefault - signalThreshold <= decayed old <= signalDefault + signalThreshold.
Proof.
  unfold decayed, signalDefault, signalThreshold.
  destruct (Z.eqb_spec old 100), (Z.gtb_spec old 100); lia.
Qed.

(** X8.  A decay tick keeps every station within bounds, whatever fails. *)
Theorem resetStations_keeps_bounds s :
  stationsWithinBounds s ->
  stationsWithinBounds (fst (resetStations env ignore s)).
Proof.
  intros Hbounds. apply map_Forall_lookup_2. intros id after Hafter.
  destruct (resetStations_lookup s id)
    as [Hsame | (current & key & station & Hcur & Hkey & _ & Hnew)].
  - rewrite Hsame in Hafter. exact (map_Forall_lookup_1 _ _ _ _ Hbounds Hafter).
  - rewrite Hnew in Hafter. injection Hafter as <-. cbn [signalValue withSignalValue].
    apply decayed_within_bounds. exact (map_Forall_lookup_1 _ _ _ _ Hbounds Hkey).
Qed.

Lemma resetStations_keeps_keyed s :
  stationsKeyed s -> stationsKeyed (fst (resetStations env ignore s)).
Proof.
  intros Hkeyed. apply map_Forall_lookup_2. intros id after Hafter.
  destruct (resetStations_lookup s id)
    as [Hsame | (current & key & station & Hcur & _ & _ & Hnew)].
  - rewrite Hsame in Hafter. exact (map_Forall_lookup_1 _ _ _ _ Hkeyed Hafter).
  - rewrite Hnew in Hafter. injection Hafter as <-. cbn [stationId withSignalValue].
    exact (map_Forall_lookup_1 _ _ _ _ Hkeyed Hcur).
Qed.

Lemma resetStations_tick s id station :
  (forall call, faulty env call = false) ->
  stationsKeyed s ->
  stations s !! id = Some station ->
  stations (fst (resetStations env ignore s)) !! id
    = Some (withSignalValue station (decayed (signalValue station))).
Proof.
  intros Hok Hkeyed Hst.
  pose proof (map_Forall_lookup_1 _ _ _ _ Hkeyed Hst) as Hid. cbn beta in Hid.
  unfold resetStations, dbLanternHack_getAllStations. rewrite andThen_emit, Hok. cbn [fst].
  assert (NoDup (List.map stationId (List.map snd (map_to_list (stations s))))) as Hnodup.
  { rewrite stationsKeyed_listing by assumption. apply NoDup_fst_map_to_list. }
  assert (In station (List.map snd (map_to_list (stations s)))) as Hin.
  { apply in_map_iff. exists (id, station). split; [reflexivity |].
    apply list_elem_of_In, elem_of_map_to_list. exact Hst. }
  rewrite <- Hid in Hst |- *.
  destruct (forEach_resetStation_at env _ s station station Hnodup Hin Hst)
    as [-> | [Hat ->]]; [intros; apply Hok | reflexivity |].
  unfold decayed. rewrite Hat, Z.eqb_refl, <- Hat. now rewrite withSignalValue_same.
Qed.

Lemma decayedBy_step n old : decayed (decayedBy n old) = decayedBy (S n) old.
Proof.
  unfold decayed, decayedBy, signalDefault. rewrite Nat2Z.inj_succ.
  destruct (Z.gtb_spec old 100).
  - destruct (Z.eqb_spec (Z.max 100 (old - Z.of_nat n)) 100);
      destruct (Z.gtb_spec (Z.max 100 (old - Z.of_nat n)) 100); lia.
  - destruct (Z.eqb_spec (Z.min 100 (old + Z.of_nat n)) 100);
      destruct (Z.gtb_spec (Z.min 100 (old + Z.of_nat n)) 100); lia.
Qed.

(** X9.  With a store that does not fail, [n] decay ticks move a station [n]
    units toward the baseline and stop there: once [n] is the distance
    to the baseline or more, the station is at the baseline. *)
Theorem resetStations_reaches_baseline s id station (n : nat) :
  (forall call, faulty env call = false) ->
  stationsKeyed s ->
  stations s !! id = Some station ->
  let after := Nat.iter n (fun s => fst (resetStations env ignore s)) s in
  stations after !! id = Some (withSignalValue station (decayedBy n (signalValue station)))
  /\ (Z.abs (signalValue station - signalDefault) <= Z.of_nat n ->
      stations after !! id = Some (withSignalValue station signalDefault)).
Proof.
  intros Hok Hkeyed Hst. cbv zeta.
  assert (stationsKeyed (Nat.iter n (fun s => fst (resetStations env ignore s)) s)
          /\ stations (Nat.iter n (fun s => fst (resetStations env ignore s)) s) !! id
             = Some (withSignalValue station (decayedBy n (signalValue station))))
    as [_ Hafter].
  { induction n as [| n [IHkeyed IH]].
    - split; [exact Hkeyed |]. unfold Nat.iter. cbn [nat_rect]. rewrite Hst. f_equal.
      unfold decayedBy. cbn [Z.of_nat]. rewrite Z.sub_0_r, Z.add_0_r.
      rewrite <- (withSignalValue_same station) at 1. f_equal.
      unfold signalDefault. destruct (Z.gtb_spec (signalValue station) 100); lia.
    - unfold Nat.iter in *. cbn [nat_rect]. split; [now apply resetStations_keeps_keyed |].
      rewrite (resetStations_tick _ _ _ Hok IHkeyed IH).
      cbn [signalValue withSignalValue]. now rewrite withSignalValue_twice, decayedBy_step. }
  split; [exact Hafter |].
  intros Hreach. rewrite Hafter. f_equal. f_equal.
  unfold decayedBy, signalDefault in *.
  destruct (Z.gtb_spec (signalValue station) 100); lia.
Qed.

End DecayTicks.

(** ** What a guess leaves in the stores *)

Section GuessStores.

Variable env : Env.

Lemma signalEngineError_None s id boosting :
  signalEngineError env s id boosting = None ->
  exists station, stations s !! id = Some station.
Proof.
  unfold signalEngineError. destruct (faulty env (GetStation id)); [discriminate |].
  destruct (stations s !! id) as [station |]; [eauto | discriminate].
Qed.

(** The stores after [manipulateStation]: as they were; or the owner's
    session with one try less; or the owner's session removed; or, on
    the success path, the station of the session written and the session
    removed (or kept, if removing it failed). *)
Lemma manipulateStation_store sent boosting token s :
  let s' := fst (manipulateStation env sent boosting token respond s) in
  s' = s
  \/ exists user lanternHack,
       isUserAllowed env token (hackLanternCommand env) = Answered user
       /\ lanternHacks s !! accountName user = Some lanternHack
       /\ ((s' = setLanternHacks
                   (<[accountName user
                      := withTriesLeft lanternHack (triesLeft lanternHack - 1)]>
                      (lanternHacks s)) s
            /\ (triesLeft lanternHack - 1 > 0
                \/ faulty env (RemoveLanternHack (accountName user)) = true))
           \/ s' = setLanternHacks (delete (accountName user) (lanternHacks s)) s
           \/ exists station,
                stations s !! hackStationId lanternHack = Some station
                /\ triesLeft lanternHack > 0
                /\ let written :=
                     setStations
                       (<[hackStationId lanternHack
                          := withSignalValue station
                               (ceilSignalValue
                                  (steppedSignalValue (signalValue station) boosting))]>
                          (stations s)) s in
                   s' = written
                   \/ s' = setLanternHacks (delete (accountName user) (lanternHacks s))
                             written).
Proof.
  cbv zeta. unfold manipulateStation.
  destruct (isValidData env sent boosting); cbn [negb]; [| now left].
  unfold authenticator_isUserAllowed. rewrite andThen_emit.
  destruct (isUserAllowed env token (hackLanternCommand env)) as [e | user] eqn:Hauth;
    [now left |].
  unfold dbLanternHack_getLanternHack. rewrite andThen_emit.
  destruct (faulty env (GetLanternHack (accountName user))); [now left |].
  destruct (lanternHacks s !! accountName user) as [lanternHack |] eqn:Hhack; [| now left].
  cbn [fst]. unfold evaluateGuess.
  destruct (List.find isCorrect (gameUsers lanternHack)) as [correctUser |]; [| now left].
  destruct (String.eqb (password correctUser) (toLowerCase sent)
            && (triesLeft lanternHack >? 0)) eqn:Hcond.
  - apply andb_prop in Hcond as [_ Htries]. apply Z.gtb_lt in Htries.
    destruct (signalEngineError env s (hackStationId lanternHack) boosting)
      as [engineError |] eqn:Hengine.
    + left.
      destruct (updateSignalValue_fails env _ _
                  (fun reply =>
                     match error reply with
                     | Some _ => respond (replyError (External "wrecking"))
                     | None =>
                         dbLanternHack_removeLanternHack env (accountName user)
                           (fun answer =>
                              match answer with
                              | Failed removeError => respond (replyError removeError)
                              | Answered _ =>
                                  respond (replyData
                                    (JObj [("success", JBool true);
                                           ("boostingSignal", JBool boosting)]))
                              end)
                     end) _ _ Hengine) as (calls & _ & ->).
      reflexivity.
    + right. exists user, lanternHack. split; [solve [reflexivity | assumption] |]. split; [solve [reflexivity | assumption] |].
      right. right.
      destruct (signalEngineError_None _ _ _ Hengine) as [station Hst].
      exists station. split; [exact Hst |]. split; [lia |].
      rewrite (updateSignalValue_run _ _ _ _ _ _ Hst Hengine). cbn zeta.
      cbn [error replyData]. unfold dbLanternHack_removeLanternHack, postRequest.
      rewrite andThen_emit.
      destruct (faulty env (RemoveLanternHack (accountName user))) eqn:Hremove.
      * cbn [respond emit fst snd].
        destruct (telemetry env _ _); rewrite ?andThen_emit; now left.
      * cbn [respond emit fst snd].
        destruct (telemetry env _ _); rewrite ?andThen_emit; right;
          cbn [respond emit skip fst snd setLanternHacks setStations lanternHacks stations
               fakePasswords];
          rewrite ?delete_delete_eq; reflexivity.
  - unfold dbLanternHack_lowerHackTries. rewrite andThen_emit.
    destruct (faulty env (LowerHackTries (accountName user))); [now left |].
    rewrite Hhack. cbn [triesLeft withTriesLeft].
    right. exists user, lanternHack. split; [solve [reflexivity | assumption] |]. split; [solve [reflexivity | assumption] |].
    destruct (Z.leb_spec (triesLeft lanternHack - 1) 0) as [Hout | Hleft].
    + unfold dbLanternHack_removeLanternHack. rewrite andThen_emit.
      destruct (faulty env (RemoveLanternHack (accountName user))) eqn:Hremove.
      * left. split; [reflexivity | now right].
      * right. left. cbn [respond emit fst setLanternHacks lanternHacks stations
                          fakePasswords].
        now rewrite delete_insert_eq.
    + left. split; [reflexivity | left; lia].
Qed.


(** X10.  A guess keeps the station store in order: every record under its own
    key and every signal value within bounds, whatever the password, the
    direction and the failures. *)
Theorem manipulateStation_keeps_stations sent boosting token s :
  stationsKeyed s ->
  stationsWithinBounds s ->
  stationsKeyed (fst (manipulateStation env sent boosting token respond s))
  /\ stationsWithinBounds (fst (manipulateStation env sent boosting token respond s)).
Proof.
  intros Hkeyed Hbounds.
  destruct (manipulateStation_store sent boosting token s)
    as [-> | (user & lanternHack & _ & _ & [[-> _] | [-> | (station & Hst & _ & Hrun)]])];
    try (split; assumption).
  cbv zeta in Hrun.
  assert (stationsKeyed
            (setStations
               (<[hackStationId lanternHack
                  := withSignalValue station
                       (ceilSignalValue (steppedSignalValue (signalValue station) boosting))]>
                  (stations s)) s)
          /\ stationsWithinBounds
               (setStations
                  (<[hackStationId lanternHack
                     := withSignalValue station
                          (ceilSignalValue
                             (steppedSignalValue (signalValue station) boosting))]>
                     (stations s)) s)) as [Hkeyed' Hbounds'].
  { split; apply map_Forall_insert_2; try assumption.
    - exact (map_Forall_lookup_1 _ _ _ _ Hkeyed Hst).
    - apply ceilSignalValue_bounds. }
  destruct Hrun as [-> | ->]; split; assumption.
Qed.

(** X11.  A guess touches the session of the caller and the station of that
    session and nothing else: the sessions of other owners, the other
    stations and the decoy pool are as they were. *)
Theorem manipulateStation_frame sent boosting token s user lanternHack name id :
  isUserAllowed env token (hackLanternCommand env) = Answered user ->
  lanternHacks s !! accountName user = Some lanternHack ->
  name <> accountName user ->
  id <> hackStationId lanternHack ->
  let s' := fst (manipulateStation env sent boosting token respond s) in
  lanternHacks s' !! name = lanternHacks s !! name
  /\ stations s' !! id = stations s !! id
  /\ fakePasswords s' = fakePasswords s.
Proof.
  intros Hauth Hhack Hname Hid. cbv zeta.
  destruct (manipulateStation_store sent boosting token s)
    as [-> | (user' & lanternHack' & Hauth' & Hhack' & Hshape)]; [auto |].
  rewrite Hauth in Hauth'. injection Hauth' as <-.
  rewrite Hhack in Hhack'. injection Hhack' as <-.
  destruct Hshape as [[-> _] | [-> | (station & _ & _ & Hrun)]].
  - cbn [setLanternHacks lanternHacks stations fakePasswords].
    rewrite lookup_insert_ne by congruence. auto.
  - cbn [setLanternHacks lanternHacks stations fakePasswords].
    rewrite lookup_delete_ne by congruence. auto.
  - cbv zeta in Hrun. destruct Hrun as [-> | ->];
      cbn [setLanternHacks setStations lanternHacks stations fakePasswords];
      rewrite ?lookup_delete_ne by congruence;
      rewrite lookup_insert_ne by congruence; auto.
Qed.

(** X12.  A guess never makes a session and never changes one beyond taking a
    try: a session found afterwards was there before, for the same
    station and with the same candidates, and has the same tries or one
    less. *)
Theorem manipulateStation_session_after sent boosting token s name after :
  lanternHacks (fst (manipulateStation env sent boosting token respond s)) !! name
    = Some after ->
  exists before,
    lanternHacks s !! name = Some before
    /\ owner after = owner before
    /\ hackStationId after = hackStationId before
    /\ gameUsers after = gameUsers before
    /\ triesLeft before - 1 <= triesLeft after <= triesLeft before.
Proof.
  intros Hafter.
  destruct (manipulateStation_store sent boosting token s)
    as [Hsame | (user & lanternHack & _ & Hhack & Hshape)].
  - rewrite Hsame in Hafter. exists after. repeat split; [assumption | lia ..].
  - destruct Hshape as [[Hrun _] | [Hrun | (station & _ & _ & Hrun)]].
    + rewrite Hrun in Hafter. cbn [setLanternHacks lanternHacks] in Hafter.
      apply lookup_insert_Some in Hafter as [[<- <-] | [_ Hafter]].
      * exists lanternHack. cbn [withTriesLeft owner hackStationId gameUsers triesLeft].
        repeat split; [assumption | lia ..].
      * exists after. repeat split; [assumption | lia ..].
    + rewrite Hrun in Hafter. cbn [setLanternHacks lanternHacks] in Hafter.
      apply lookup_delete_Some in Hafter as [_ Hafter].
      exists after. repeat split; [assumption | lia ..].
    + cbv zeta in Hrun. destruct Hrun as [Hrun | Hrun]; rewrite Hrun in Hafter;
        cbn [setLanternHacks setStations lanternHacks] in Hafter.
      * exists after. repeat split; [assumption | lia ..].
      * apply lookup_delete_Some in Hafter as [_ Hafter].
        exists after. repeat split; [assumption | lia ..].
Qed.

(** X13.  While removing a session does not fail, a guess leaves no session
    without tries behind: if every stored session has tries left before
    the guess, so has every stored session after it. *)
Theorem manipulateStation_keeps_tries_positive sent boosting token s :
  (forall name, faulty env (RemoveLanternHack name) = false) ->
  (forall name lanternHack,
     lanternHacks s !! name = Some lanternHack -> triesLeft lanternHack > 0) ->
  forall name lanternHack,
    lanternHacks (fst (manipulateStation env sent boosting token respond s)) !! name
      = Some lanternHack ->
    triesLeft lanternHack > 0.
Proof.
  intros Hremove Hpositive name after Hafter.
  destruct (manipulateStation_store sent boosting token s)
    as [Hsame | (user & lanternHack & _ & Hhack & Hshape)].
  - rewrite Hsame in Hafter. eauto.
  - destruct Hshape as [[Hrun Hleft] | [Hrun | (station & _ & _ & Hrun)]].
    + rewrite Hremove in Hleft. destruct Hleft as [Hleft | ?]; [| discriminate].
      rewrite Hrun in Hafter. cbn [setLanternHacks lanternHacks] in Hafter.
      apply lookup_insert_Some in Hafter as [[<- <-] | [_ Hafter]]; [exact Hleft | eauto].
    + rewrite Hrun in Hafter. cbn [setLanternHacks lanternHacks] in Hafter.
      apply lookup_delete_Some in Hafter as [_ Hafter]. eauto.
    + cbv zeta in Hrun. destruct Hrun as [Hrun | Hrun]; rewrite Hrun in Hafter;
        cbn [setLanternHacks setStations lanternHacks] in Hafter.
      * eauto.
      * apply lookup_delete_Some in Hafter as [_ Hafter]. eauto.
Qed.

End GuessStores.

(** ** Guesses that cannot be evaluated, and guesses that cannot win *)

Section GuessEdges.

Variable env : Env.

(** X14.  A guess from a caller without a stored session is answered with the
    store's error, once; no try is taken, no station is read and the
    stores are as they were. *)
Theorem manipulateStation_without_session sent boosting token s user :
  isValidData env sent boosting = true ->
  isUserAllowed env token (hackLanternCommand env) = Answered user ->
  faulty env (GetLanternHack (accountName user)) = false ->
  lanternHacks s !! accountName user = None ->
  manipulateStation env sent boosting token respond s
  = (s, [IsUserAllowed token (hackLanternCommand env);
         Db (GetLanternHack (accountName user));
         Replied (replyError (DoesNotExist "lantern hack"))]).
Proof.
  intros Hvalid Hauth Hget Hnone.
  unfold manipulateStation, authenticator_isUserAllowed, dbLanternHack_getLanternHack.
  rewrite Hvalid. cbn [negb]. rewrite andThen_emit, Hauth, andThen_emit, Hget, Hnone.
  reflexivity.
Qed.

Lemma lowerChar_idempotent c : lowerChar (lowerChar c) = lowerChar c.
Proof. destruct c as [[] [] [] [] [] [] [] []]; reflexivity. Qed.

Lemma toLowerCase_idempotent text : toLowerCase (toLowerCase text) = toLowerCase text.
Proof.
  unfold toLowerCase. rewrite list_ascii_of_string_of_list_ascii, List.map_map.
  f_equal. apply List.map_ext. intros c. apply lowerChar_idempotent.
Qed.

(** X15.  Only the guess is case-folded, not the stored password: a session
    whose correct password has an upper-case letter cannot be won,
    whatever is sent. *)
Theorem manipulateStation_mixed_case_password sent boosting token s user lanternHack
    correctUser :
  isUserAllowed env token (hackLanternCommand env) = Answered user ->
  lanternHacks s !! accountName user = Some lanternHack ->
  List.find isCorrect (gameUsers lanternHack) = Some correctUser ->
  toLowerCase (password correctUser) <> password correctUser ->
  successBranchTaken (snd (manipulateStation env sent boosting token respond s)) = false.
Proof.
  intros Hauth Hhack Hfind Hmixed.
  unfold manipulateStation.
  destruct (isValidData env sent boosting); cbn [negb]; [| reflexivity].
  unfold authenticator_isUserAllowed. rewrite andThen_emit, Hauth.
  unfold dbLanternHack_getLanternHack. rewrite andThen_emit.
  destruct (faulty env (GetLanternHack (accountName user))); [reflexivity |].
  rewrite Hhack.
  change (successBranchTaken
            (snd (evaluateGuess env sent boosting user respond lanternHack s)) = false).
  apply (evaluateGuess_mismatch_not_success env _ _ _ _ _ _ Hfind).
  apply andb_false_iff. left. apply String.eqb_neq. intros Heq.
  apply Hmixed. rewrite Heq. apply toLowerCase_idempotent.
Qed.

Lemma firstIsCorrect_find candidates :
  firstIsCorrect candidates ->
  exists first others,
    candidates = first :: others /\ List.find isCorrect candidates = Some first.
Proof.
  destruct candidates as [| first others]; [intros [] |].
  intros [Hfirst _]. exists first, others. split; [reflexivity |].
  cbn [List.find]. now rewrite Hfirst.
Qed.

(** X16.  With sessions whose first candidate is the correct one, as
    [createLanternHack] makes them, and telemetry requests that do not
    fail, a guess whose password is a string does not throw, and the
    caller is answered at least once. *)
Theorem manipulateStation_answers sent boosting token s :
  (forall name lanternHack,
     lanternHacks s !! name = Some lanternHack -> firstIsCorrect (gameUsers lanternHack)) ->
  (forall station boost, telemetry env station boost <> None) ->
  let run := manipulateStation env sent boosting token respond s in
  existsb isUncaught (snd run) = false /\ replies (snd run) <> [].
Proof.
  intros Hformed Hsent. cbv zeta. unfold manipulateStation.
  destruct (isValidData env sent boosting); cbn [negb]; [| split; [reflexivity | discriminate]].
  unfold authenticator_isUserAllowed. rewrite andThen_emit.
  destruct (isUserAllowed env token (hackLanternCommand env)) as [e | user];
    [split; [reflexivity | discriminate] |].
  unfold dbLanternHack_getLanternHack. rewrite andThen_emit.
  destruct (faulty env (GetLanternHack (accountName user)));
    [split; [reflexivity | discriminate] |].
  destruct (lanternHacks s !! accountName user) as [lanternHack |] eqn:Hhack;
    [| split; [reflexivity | discriminate]].
  destruct (firstIsCorrect_find _ (Hformed _ _ Hhack)) as (first & others & _ & Hfind).
  cbn [snd existsb isUncaught replies orb].
  unfold evaluateGuess. rewrite Hfind.
  destruct (String.eqb (password first) (toLowerCase sent) && (triesLeft lanternHack >? 0)).
  - destruct (signalEngineError env s (hackStationId lanternHack) boosting)
      as [engineError |] eqn:Hengine.
    + destruct (updateSignalValue_fails env _ _
                  (fun reply =>
                     match error reply with
                     | Some _ => respond (replyError (External "wrecking"))
                     | None =>
                         dbLanternHack_removeLanternHack env (accountName user)
                           (fun answer =>
                              match answer with
                              | Failed removeError => respond (replyError removeError)
                              | Answered _ =>
                                  respond (replyData
                                    (JObj [("success", JBool true);
                                           ("boostingSignal", JBool boosting)]))
                              end)
                     end) _ _ Hengine) as (calls & _ & ->).
      cbn [error replyError respond emit snd].
      rewrite existsb_app, replies_app. cbn [existsb isUncaught replies orb].
      split.
      * rewrite orb_false_r. clear. induction calls; [reflexivity | assumption].
      * intros Hnil. apply app_eq_nil in Hnil as [_ Hnil]. discriminate.
    + destruct (signalEngineError_None _ _ _ _ Hengine) as [station Hst].
      rewrite (updateSignalValue_run _ _ _ _ _ _ Hst Hengine). cbn zeta.
      cbn [error replyData]. unfold dbLanternHack_removeLanternHack.
      rewrite andThen_emit.
      destruct (faulty env (RemoveLanternHack (accountName user)));
        rewrite postRequest_run;
        (destruct (telemetry env _ _) eqn:Hanswer; [| now apply Hsent in Hanswer]);
        (split; [reflexivity | discriminate]).
  - unfold dbLanternHack_lowerHackTries. rewrite andThen_emit.
    destruct (faulty env (LowerHackTries (accountName user)));
      [split; [reflexivity | discriminate] |].
    rewrite Hhack. cbn [triesLeft withTriesLeft].
    destruct (_ <=? 0); [| split; [reflexivity | discriminate]].
    unfold dbLanternHack_removeLanternHack. rewrite andThen_emit.
    destruct (faulty env (RemoveLanternHack (accountName user)));
      (split; [reflexivity | discriminate]).
Qed.

End GuessEdges.

(** ** Requesting a challenge *)

Section Requests.

Lemma randomBelow_range (r : Q) (n : Z) :
  (0 <= r)%Q -> (r < 1)%Q -> 0 <= n ->
  0 <= randomBelow r n /\ (0 < n -> randomBelow r n < n) /\ (n = 0 -> randomBelow r n = 0).
Proof.
  intros Hlow Hhigh Hn. unfold randomBelow.
  assert (inject_Z 0 <= r * inject_Z n)%Q as Hpos.
  { change (inject_Z 0) with (0 * 0)%Q at 1.
    apply Qmult_le_compat_nonneg; split; try apply Qle_refl; try assumption.
    change 0%Q with (inject_Z 0). now rewrite <- Zle_Qle. }
  split; [| split].
  - rewrite <- (Qfloor_Z 0). now apply Qfloor_resp_le.
  - intros Hn'. apply Z.lt_nge. intros Hge.
    assert (inject_Z n <= r * inject_Z n)%Q as Hcontra.
    { eapply Qle_trans; [| apply Qfloor_le]. now rewrite <- Zle_Qle. }
    assert (r * inject_Z n < 1 * inject_Z n)%Q as Hlt.
    { apply Qmult_lt_compat_r; [| assumption].
      change 0%Q with (inject_Z 0). now rewrite <- Zlt_Qlt. }
    rewrite Qmult_1_l in Hlt. exact (Qlt_irrefl _ (Qle_lt_trans _ _ _ Hcontra Hlt)).
  - intros ->. assert (r * inject_Z 0 == inject_Z 0)%Q as Hzero by (unfold inject_Z; ring).
    rewrite (Qfloor_comp _ _ Hzero). apply Qfloor_Z.
Qed.


Variable hackEnv : HackEnv.

Hypothesis random_unit : forall draw, (0 <= random hackEnv draw)%Q /\ (random hackEnv draw < 1)%Q.

Lemma chooseCandidate_drawn draw gameUser :
  passwords gameUser <> [] ->
  exists candidate,
    chooseCandidate hackEnv draw gameUser = Some candidate
    /\ isCorrect candidate = false
    /\ drawnFrom gameUser candidate.
Proof.
  intros Hsome. unfold chooseCandidate.
  set (count := Z.of_nat (length (passwords gameUser))).
  assert (0 < count) as Hcount.
  { unfold count. destruct (passwords gameUser); [congruence | cbn [length]; lia]. }
  destruct (random_unit draw) as [Hlow Hhigh].
  destruct (randomBelow_range _ count Hlow Hhigh ltac:(lia)) as (Hpos & Hbelow & _).
  specialize (Hbelow Hcount).
  set (passwordRand := randomBelow (random hackEnv draw) count) in *.
  unfold arrayAt. destruct (Z.ltb_spec passwordRand 0); [lia |].
  destruct (nth_error (passwords gameUser) (Z.to_nat passwordRand)) as [chosen |] eqn:Hnth.
  - eexists. split; [reflexivity |]. split; [reflexivity |].
    unfold drawnFrom. cbn [userName password passwordType passwordHint index character].
    destruct (random_unit (S draw)) as [Hlow' Hhigh'].
    destruct (randomBelow_range _ (Z.of_nat (String.length chosen)) Hlow' Hhigh'
                ltac:(lia)) as (Hpos' & Hbelow' & _).
    split; [reflexivity |]. split; [exists passwordRand; auto |].
    split; [exact Hpos' |]. split; [| reflexivity].
    intros Hnonempty. apply Hbelow'. destruct chosen; [congruence | cbn; lia].
  - apply nth_error_None in Hnth. unfold count in Hbelow. lia.
Qed.

Lemma chooseCandidates_drawn draw chosen :
  Forall (fun gameUser => passwords gameUser <> []) chosen ->
  exists candidates,
    chooseCandidates hackEnv draw chosen = Some candidates
    /\ Forall2 drawnFrom chosen candidates
    /\ Forall (fun candidate => isCorrect candidate = false) candidates.
Proof.
  intros Hall. revert draw. induction Hall as [| gameUser rest Hsome _ IH]; intros draw.
  - exists []. repeat split; constructor.
  - cbn [chooseCandidates].
    destruct (chooseCandidate_drawn draw gameUser Hsome) as (candidate & -> & Hfalse & Hdrawn).
    destruct (IH (S (S draw))) as (candidates & -> & Hrest & Hfalses).
    exists (candidate :: candidates). repeat split; constructor; assumption.
Qed.

Lemma drawnFrom_names chosen candidates :
  Forall2 drawnFrom chosen candidates ->
  List.map userName candidates = List.map storedUserName chosen.
Proof.
  induction 1 as [| gameUser candidate rest cs Hd _ IH]; [reflexivity |].
  cbn [List.map]. rewrite IH. f_equal. exact (proj1 Hd).
Qed.

Lemma createLanternHack_run stationId name tries callback s stored :
  getGameUsers hackEnv stationId = Answered stored ->
  stored <> [] ->
  (forall gameUsers, Permutation (shuffleGameUsers hackEnv gameUsers) gameUsers) ->
  Forall (fun gameUser => passwords gameUser <> []) stored ->
  updateLanternHackFails hackEnv name = false ->
  exists candidates,
    let lanternHack := {| owner := name; hackStationId := stationId;
                          gameUsers := candidates; triesLeft := tries |} in
    createLanternHack hackEnv stationId name tries callback s
      = callback (Answered lanternHack)
          (setLanternHacks (<[name := lanternHack]> (lanternHacks s)) s)
    /\ firstIsCorrect candidates
    /\ length candidates = Nat.min 2 (length stored)
    /\ Forall (fun candidate =>
                 exists gameUser, In gameUser stored /\ drawnFrom gameUser candidate)
              candidates
    /\ (NoDup (List.map storedUserName stored) -> NoDup (List.map userName candidates)).
Proof.
  intros Hget Hsome Hshuffle Hpasswords Hupdate.
  unfold createLanternHack. rewrite Hget.
  assert ((Z.of_nat (length stored) <? 1) = false) as ->.
  { apply Z.ltb_ge. destruct stored; [congruence | cbn [length]; lia]. }
  set (chosen := firstn 2 (shuffleGameUsers hackEnv stored)).
  assert (forall gameUser, In gameUser chosen -> In gameUser stored) as Hchosen.
  { intros gameUser Hin. apply (Permutation_in _ (Hshuffle stored)).
    unfold chosen in Hin. rewrite <- (List.firstn_skipn 2). apply in_or_app. now left. }
  assert (length chosen = Nat.min 2 (length stored)) as Hlength.
  { unfold chosen. rewrite List.length_firstn.
    now rewrite (Permutation_length (Hshuffle stored)). }
  assert (Forall (fun gameUser => passwords gameUser <> []) chosen) as Hall.
  { apply List.Forall_forall. intros gameUser Hin.
    exact (proj1 (List.Forall_forall _ _) Hpasswords _ (Hchosen _ Hin)). }
  destruct (chooseCandidates_drawn 0 chosen Hall) as (candidates & -> & Hdrawn & Hfalse).
  assert (length candidates = length chosen) as Hsame
    by (symmetry; exact (Forall2_length _ _ _ Hdrawn)).
  destruct candidates as [| first others].
  { exfalso. cbn [length] in Hsame. destruct stored; [congruence |]. cbn [length] in Hlength.
    lia. }
  exists (markCorrect first :: others). cbv zeta.
  unfold dbLanternHack_updateLanternHack. rewrite Hupdate.
  split; [reflexivity |]. split; [| split; [| split]].
  - split; [reflexivity |]. now apply Forall_cons in Hfalse as [_ Hfalse].
  - cbn [length] in *. lia.
  - assert (Forall (fun candidate =>
                      exists gameUser, In gameUser stored /\ drawnFrom gameUser candidate)
                   (first :: others)) as Hfrom.
    { clear -Hdrawn Hchosen. induction Hdrawn as [| gameUser candidate rest cs Hd _ IH].
      - constructor.
      - constructor.
        + exists gameUser. split; [apply Hchosen; now left | exact Hd].
        + apply IH. intros other Hin. apply Hchosen. now right. }
    apply Forall_cons in Hfrom as [(gameUser & Hin & Hd) Hothers].
    constructor; [| exact Hothers].
    exists gameUser. split; [exact Hin | exact Hd].
  - intros Hnodup.
    change (List.map userName (markCorrect first :: others))
      with (List.map userName (first :: others)).
    rewrite (drawnFrom_names _ _ Hdrawn). unfold chosen. rewrite <- List.firstn_map.
    assert (NoDup (List.map storedUserName (shuffleGameUsers hackEnv stored))) as Hshuffled.
    { rewrite (Permutation_map storedUserName (Hshuffle stored)). exact Hnodup. }
    rewrite <- (List.firstn_skipn 2 (List.map storedUserName _)) in Hshuffled.
    now apply NoDup_app in Hshuffled as [Hfirst _].
Qed.


(** X17.  For a station that has game users, each with a password, and a store
    that takes the session: [createLanternHack] stores, in place of any
    session the owner had, a session for the station with the tries
    given and with two candidates (one if the station has one game user);
    the first candidate is the one marked correct and no other is; each
    candidate is made from a game user of the station, and from game
    users of different names when the names in the store differ; and the
    callback gets that session. *)
Theorem createLanternHack_creates stationId name tries callback s stored :
  getGameUsers hackEnv stationId = Answered stored ->
  stored <> [] ->
  (forall gameUsers, Permutation (shuffleGameUsers hackEnv gameUsers) gameUsers) ->
  Forall (fun gameUser => passwords gameUser <> []) stored ->
  updateLanternHackFails hackEnv name = false ->
  exists candidates,
    let lanternHack := {| owner := name; hackStationId := stationId;
                          gameUsers := candidates; triesLeft := tries |} in
    createLanternHack hackEnv stationId name tries callback s
      = callback (Answered lanternHack)
          (setLanternHacks (<[name := lanternHack]> (lanternHacks s)) s)
    /\ firstIsCorrect candidates
    /\ length candidates = Nat.min 2 (length stored)
    /\ Forall (fun candidate =>
                 exists gameUser, In gameUser stored /\ drawnFrom gameUser candidate)
              candidates
    /\ (NoDup (List.map storedUserName stored) -> NoDup (List.map userName candidates)).
Proof. exact (createLanternHack_run stationId name tries callback s stored). Qed.

End Requests.

Section RequestRuns.

Variable env : Env.
Variable hackEnv : HackEnv.

Lemma chooseCandidates_unmarked draw chosen candidates :
  chooseCandidates hackEnv draw chosen = Some candidates ->
  Forall (fun candidate => isCorrect candidate = false) candidates.
Proof.
  revert draw candidates. induction chosen as [| gameUser rest IH]; intros draw candidates.
  - cbn. intros [= <-]. constructor.
  - cbn [chooseCandidates].
    destruct (chooseCandidate hackEnv draw gameUser) as [candidate |] eqn:Hone;
      [| discriminate].
    destruct (chooseCandidates hackEnv (S (S draw)) rest) as [others |] eqn:Hrest;
      [| discriminate].
    intros [= <-]. constructor; [| eauto].
    unfold chooseCandidate in Hone.
    destruct (arrayAt _ _); [| discriminate]. now injection Hone as <-.
Qed.

Lemma createHackData_store lanternHack s :
  fst (createHackData env lanternHack (forwardHackData respond) s) = s.
Proof.
  unfold createHackData, dbLanternHack_getAllFakePasswords. rewrite andThen_emit. cbn [fst].
  destruct (faulty env GetAllFakePasswords); [reflexivity |].
  destruct (List.find isCorrect (gameUsers lanternHack)); reflexivity.
Qed.

(** The stores after [getLanternHack]: as they were, or with the
    caller's session replaced by a new one for the station asked for. *)
Lemma getLanternHack_store stationId token s :
  let s' := fst (getLanternHack env hackEnv stationId token respond s) in
  s' = s
  \/ exists user first others,
       isUserAllowed env token (hackLanternCommandName hackEnv) = Answered user
       /\ Forall (fun candidate => isCorrect candidate = false) others
       /\ s' = setLanternHacks
                 (<[accountName user
                    := {| owner := accountName user; hackStationId := stationId;
                          gameUsers := markCorrect first :: others;
                          triesLeft := hackingTriesAmount hackEnv |}]>
                    (lanternHacks s)) s.
Proof.
  cbv zeta. unfold getLanternHack.
  destruct (isValidStationId hackEnv stationId); cbn [negb]; [| now left].
  unfold authenticator_isUserAllowed. rewrite andThen_emit.
  destruct (isUserAllowed env token (hackLanternCommandName hackEnv)) as [e | user] eqn:Hauth;
    [now left |].
  unfold dbLanternHack_getLanternHack. rewrite andThen_emit. cbn [fst].
  destruct (faulty env (GetLanternHack (accountName user))); [now left |].
  destruct (lanternHacks s !! accountName user) as [lanternHack |]; [| now left].
  destruct (hackStationId lanternHack =? stationId); cbn [negb];
    [left; apply createHackData_store |].
  unfold createLanternHack.
  destruct (getGameUsers hackEnv stationId) as [e | stored]; [now left |].
  destruct (Z.of_nat (length stored) <? 1); [now left |].
  destruct (chooseCandidates hackEnv 0 (firstn 2 (shuffleGameUsers hackEnv stored)))
    as [[| first others] |] eqn:Hchosen; [now left | | now left].
  unfold dbLanternHack_updateLanternHack.
  destruct (updateLanternHackFails hackEnv (accountName user)); [now left |].
  right. exists user, first, others. split; [reflexivity |]. split.
  - apply chooseCandidates_unmarked in Hchosen. now apply Forall_cons in Hchosen as [_ ?].
  - apply createHackData_store.
Qed.

(** X18.  Requesting a challenge never writes a station or the decoy pool, and
    never touches the session of another owner. *)
Theorem getLanternHack_frame stationId token s user name :
  isUserAllowed env token (hackLanternCommandName hackEnv) = Answered user ->
  name <> accountName user ->
  let s' := fst (getLanternHack env hackEnv stationId token respond s) in
  stations s' = stations s
  /\ fakePasswords s' = fakePasswords s
  /\ lanternHacks s' !! name = lanternHacks s !! name.
Proof.
  intros Hauth Hname. cbv zeta.
  destruct (getLanternHack_store stationId token s)
    as [-> | (user' & first & others & Hauth' & _ & ->)]; [auto |].
  rewrite Hauth in Hauth'. injection Hauth' as <-.
  cbn [setLanternHacks stations fakePasswords lanternHacks].
  rewrite lookup_insert_ne by congruence. auto.
Qed.

(** X19.  If every stored session has exactly one candidate marked correct,
    and that one first, this is still so after a challenge was
    requested, whatever the collaborators answer. *)
Theorem getLanternHack_keeps_sessions_formed stationId token s :
  (forall name lanternHack,
     lanternHacks s !! name = Some lanternHack -> firstIsCorrect (gameUsers lanternHack)) ->
  forall name lanternHack,
    lanternHacks (fst (getLanternHack env hackEnv stationId token respond s)) !! name
      = Some lanternHack ->
    firstIsCorrect (gameUsers lanternHack).
Proof.
  intros Hformed name after Hafter.
  destruct (getLanternHack_store stationId token s)
    as [Hsame | (user & first & others & _ & Hothers & Hrun)].
  - rewrite Hsame in Hafter. eauto.
  - rewrite Hrun in Hafter. cbn [setLanternHacks lanternHacks] in Hafter.
    apply lookup_insert_Some in Hafter as [[_ <-] | [_ Hafter]]; [| eauto].
    cbn [gameUsers]. split; [reflexivity | exact Hothers].
Qed.

(** X20.  Asked again for the station of the session the caller has,
    [getLanternHack] changes nothing and answers with that session's
    tries: the tries are not given back. *)
Theorem getLanternHack_same_station stationId token s user lanternHack correctUser :
  isValidStationId hackEnv stationId = true ->
  isUserAllowed env token (hackLanternCommandName hackEnv) = Answered user ->
  faulty env (GetLanternHack (accountName user)) = false ->
  lanternHacks s !! accountName user = Some lanternHack ->
  hackStationId lanternHack = stationId ->
  faulty env GetAllFakePasswords = false ->
  List.find isCorrect (gameUsers lanternHack) = Some correctUser ->
  exists payload,
    getLanternHack env hackEnv stationId token respond s
      = (s, [IsUserAllowed token (hackLanternCommandName hackEnv);
             Db (GetLanternHack (accountName user));
             Db GetAllFakePasswords;
             Replied (replyData (JObj payload))])
    /\ lookupField "triesLeft" payload = Some (JNum (triesLeft lanternHack))
    /\ lookupField "stationId" payload = Some (JNum stationId)
    /\ lookupField "userName" payload = Some (JStr (userName correctUser)).
Proof.
  intros Hvalid Hauth Hget Hhack Hstation Hpool Hfind. subst stationId.
  unfold getLanternHack, authenticator_isUserAllowed, dbLanternHack_getLanternHack.
  rewrite Hvalid. cbn [negb]. rewrite andThen_emit, Hauth, andThen_emit, Hget, Hhack.
  rewrite Z.eqb_refl. cbn [negb].
  unfold createHackData, dbLanternHack_getAllFakePasswords.
  rewrite andThen_emit, Hpool, Hfind.
  cbn [forwardHackData error data replyData respond emit fst snd].
  eexists. split; [reflexivity |]. split; [reflexivity |]. split; reflexivity.
Qed.

(** X21.  A caller who has a session and asks for another station, one with
    game users that each have a password: the session is replaced by a
    new one for that station with the full tries, its first candidate
    the correct one, and the answer shows the full tries, the station
    and the name of that first candidate. *)
Theorem getLanternHack_other_station stationId token s user lanternHack stored :
  (forall draw, (0 <= random hackEnv draw)%Q /\ (random hackEnv draw < 1)%Q) ->
  isValidStationId hackEnv stationId = true ->
  isUserAllowed env token (hackLanternCommandName hackEnv) = Answered user ->
  faulty env (GetLanternHack (accountName user)) = false ->
  lanternHacks s !! accountName user = Some lanternHack ->
  hackStationId lanternHack <> stationId ->
  getGameUsers hackEnv stationId = Answered stored ->
  stored <> [] ->
  (forall gameUsers, Permutation (shuffleGameUsers hackEnv gameUsers) gameUsers) ->
  Forall (fun gameUser => passwords gameUser <> []) stored ->
  updateLanternHackFails hackEnv (accountName user) = false ->
  faulty env GetAllFakePasswords = false ->
  exists first others payload,
    let created := {| owner := accountName user; hackStationId := stationId;
                      gameUsers := first :: others;
                      triesLeft := hackingTriesAmount hackEnv |} in
    let run := getLanternHack env hackEnv stationId token respond s in
    fst run = setLanternHacks (<[accountName user := created]> (lanternHacks s)) s
    /\ replies (snd run) = [replyData (JObj payload)]
    /\ firstIsCorrect (first :: others)
    /\ lookupField "triesLeft" payload = Some (JNum (hackingTriesAmount hackEnv))
    /\ lookupField "stationId" payload = Some (JNum stationId)
    /\ lookupField "userName" payload = Some (JStr (userName first)).
Proof.
  intros Hrandom Hvalid Hauth Hget Hhack Hother Hstored Hsome Hshuffle Hpasswords Hupdate
    Hpool.
  destruct (createLanternHack_run hackEnv Hrandom stationId (accountName user)
              (hackingTriesAmount hackEnv)
              (fun created =>
                 match created with
                 | Failed createError => respond (replyError createError)
                 | Answered createdHack =>
                     createHackData env createdHack (forwardHackData respond)
                 end) s stored Hstored Hsome Hshuffle Hpasswords Hupdate)
    as (candidates & Hrun & Hformed & _).
  cbv zeta in Hrun.
  destruct (firstIsCorrect_find _ Hformed) as (first & others & -> & Hfind).
  exists first, others. eexists. cbv zeta.
  unfold getLanternHack, authenticator_isUserAllowed, dbLanternHack_getLanternHack.
  rewrite Hvalid. cbn [negb]. rewrite andThen_emit, Hauth, andThen_emit, Hget, Hhack.
  assert ((hackStationId lanternHack =? stationId) = false) as -> by now apply Z.eqb_neq.
  cbn [negb]. rewrite Hrun.
  unfold createHackData, dbLanternHack_getAllFakePasswords.
  rewrite andThen_emit, Hpool. cbn [gameUsers]. rewrite Hfind.
  cbn [forwardHackData error data replyData respond emit fst snd replies].
  split; [reflexivity |]. split; [reflexivity |]. split; [exact Hformed |].
  split; [reflexivity |]. split; reflexivity.
Qed.

(** X22.  A caller who has a session and asks for a station without game
    users is answered [DoesNotExist], and the session is as it was. *)
Theorem getLanternHack_station_without_game_users stationId token s user lanternHack :
  isValidStationId hackEnv stationId = true ->
  isUserAllowed env token (hackLanternCommandName hackEnv) = Answered user ->
  faulty env (GetLanternHack (accountName user)) = false ->
  lanternHacks s !! accountName user = Some lanternHack ->
  hackStationId lanternHack <> stationId ->
  getGameUsers hackEnv stationId = Answered [] ->
  getLanternHack env hackEnv stationId token respond s
  = (s, [IsUserAllowed token (hackLanternCommandName hackEnv);
         Db (GetLanternHack (accountName user));
         Replied (replyError (DoesNotExist "game users"))]).
Proof.
  intros Hvalid Hauth Hget Hhack Hother Hstored.
  unfold getLanternHack, authenticator_isUserAllowed, dbLanternHack_getLanternHack.
  rewrite Hvalid. cbn [negb]. rewrite andThen_emit, Hauth, andThen_emit, Hget, Hhack.
  assert ((hackStationId lanternHack =? stationId) = false) as -> by now apply Z.eqb_neq.
  cbn [negb]. unfold createLanternHack. rewrite Hstored. reflexivity.
Qed.

(** X23.  When the session store answers that the caller has no session, with
    an error and no data, [getLanternHack] reads the session of that
    answer all the same: it throws, the caller is not answered and no
    session is made. *)
Theorem getLanternHack_without_session stationId token s user :
  isValidStationId hackEnv stationId = true ->
  isUserAllowed env token (hackLanternCommandName hackEnv) = Answered user ->
  faulty env (GetLanternHack (accountName user)) = false ->
  lanternHacks s !! accountName user = None ->
  getLanternHack env hackEnv stationId token respond s
  = (s, [IsUserAllowed token (hackLanternCommandName hackEnv);
         Db (GetLanternHack (accountName user));
         Uncaught "TypeError"]).
Proof.
  intros Hvalid Hauth Hget Hnone.
  unfold getLanternHack, authenticator_isUserAllowed, dbLanternHack_getLanternHack.
  rewrite Hvalid. cbn [negb]. rewrite andThen_emit, Hauth, andThen_emit, Hget, Hnone.
  reflexivity.
Qed.

End RequestRuns.

(** ** The acknowledgement callback *)

Section Acknowledgement.

Variable env : Env.

Lemma fst_andThen (a b : Action) (s : Store) :
  fst ((a ;; b) s) = fst (b (fst (a s))).
Proof.
  unfold andThen. destruct (a s) as [s1 e1]. cbn [fst].
  destruct (b s1). reflexivity.
Qed.

(** The signal engine does the same to the stores with two callbacks
    that do the same to the stores. *)
Lemma updateSignalValue_callbacks id boosting (k1 k2 : Reply -> Action) :
  (forall reply s, fst (k1 reply s) = fst (k2 reply s)) ->
  forall s,
    fst (updateSignalValue env id boosting k1 s)
    = fst (updateSignalValue env id boosting k2 s).
Proof.
  intros Hsame s.
  unfold updateSignalValue, dbLanternHack_getStation. rewrite !andThen_emit. cbn [fst].
  destruct (faulty env (GetStation id)); [apply Hsame |].
  destruct (stations s !! id) as [station |]; [| apply Hsame].
  unfold setNewValue, dbLanternHack_updateSignalValue. rewrite !andThen_emit. cbn [fst].
  destruct (faulty env (UpdateSignalValue id _)); [apply Hsame |].
  destruct (stations s !! id); [| apply Hsame].
  rewrite !fst_andThen, Hsame, !postRequest_run. reflexivity.
Qed.

(** X24.  The socket handler passes [() => {}] when the client sent no
    acknowledgement function.  A callback that leaves the stores alone
    does not change what a guess does to them: with or without an
    acknowledgement the stores end up the same. *)
Theorem manipulateStation_whatever_callback sent boosting token callback s :
  (forall reply s', fst (callback reply s') = s') ->
  fst (manipulateStation env sent boosting token callback s)
  = fst (manipulateStation env sent boosting token respond s).
Proof.
  intros Hobserver.
  unfold manipulateStation.
  destruct (isValidData env sent boosting); cbn [negb]; [| now rewrite Hobserver].
  unfold authenticator_isUserAllowed. rewrite !andThen_emit. cbn [fst].
  destruct (isUserAllowed env token (hackLanternCommand env)) as [e | user];
    [now rewrite Hobserver |].
  unfold dbLanternHack_getLanternHack. rewrite !andThen_emit. cbn [fst].
  destruct (faulty env (GetLanternHack (accountName user))); [now rewrite Hobserver |].
  destruct (lanternHacks s !! accountName user) as [lanternHack |] eqn:Hhack;
    [| now rewrite Hobserver].
  unfold evaluateGuess.
  destruct (List.find isCorrect (gameUsers lanternHack)) as [correctUser |]; [| reflexivity].
  destruct (String.eqb (password correctUser) (toLowerCase sent) && (triesLeft lanternHack >? 0)).
  - apply updateSignalValue_callbacks. intros reply s'.
    destruct (error reply); [now rewrite Hobserver |].
    unfold dbLanternHack_removeLanternHack. rewrite !andThen_emit. cbn [fst].
    destruct (faulty env _); now rewrite Hobserver.
  - unfold dbLanternHack_lowerHackTries. rewrite !andThen_emit. cbn [fst].
    destruct (faulty env (LowerHackTries _)); [now rewrite Hobserver |].
    rewrite Hhack. cbn [triesLeft withTriesLeft].
    destruct (_ <=? 0); [| now rewrite Hobserver].
    unfold dbLanternHack_removeLanternHack. rewrite !andThen_emit. cbn [fst].
    destruct (faulty env _); now rewrite Hobserver.
Qed.

End Acknowledgement.

(** ** A right guess, the case of a guess, and where the right password is shown *)

Section Winning.

Variable env : Env.

(** X25.  A right guess with tries left, a station that can be read and
    written and a session that can be removed: the station holds the new
    value, the session is gone, and the first answer says [success: true]
    with the direction asked for. *)
Theorem manipulateStation_wins sent boosting token s user lanternHack correctUser station :
  isValidData env sent boosting = true ->
  isUserAllowed env token (hackLanternCommand env) = Answered user ->
  faulty env (GetLanternHack (accountName user)) = false ->
  lanternHacks s !! accountName user = Some lanternHack ->
  List.find isCorrect (gameUsers lanternHack) = Some correctUser ->
  password correctUser = toLowerCase sent ->
  triesLeft lanternHack > 0 ->
  stations s !! hackStationId lanternHack = Some station ->
  signalEngineError env s (hackStationId lanternHack) boosting = None ->
  faulty env (RemoveLanternHack (accountName user)) = false ->
  let run := manipulateStation env sent boosting token respond s in
  stations (fst run) !! hackStationId lanternHack
    = Some (withSignalValue station
              (ceilSignalValue (steppedSignalValue (signalValue station) boosting)))
  /\ lanternHacks (fst run) !! accountName user = None
  /\ hd_error (replies (snd run))
     = Some (replyData (JObj [("success", JBool true); ("boostingSignal", JBool boosting)])).
Proof.
  intros Hvalid Hauth Hget Hhack Hfind Hpass Htries Hst Hengine Hremove. cbv zeta.
  rewrite (manipulateStation_loaded _ _ _ _ _ _ _ Hvalid Hauth Hget Hhack).
  unfold evaluateGuess. rewrite Hfind.
  apply String.eqb_eq in Hpass. rewrite Hpass.
  assert ((triesLeft lanternHack >? 0) = true) as -> by (apply Z.gtb_lt; lia).
  cbn [andb].
  rewrite (updateSignalValue_run _ _ _ _ _ _ Hst Hengine).
  cbn [error replyData]. unfold dbLanternHack_removeLanternHack, postRequest.
  rewrite !andThen_emit, Hremove.
  destruct (telemetry env _ _); rewrite ?andThen_emit;
    cbn [fst snd respond emit skip app replies hd_error setLanternHacks setStations
         lanternHacks stations];
    (split; [apply lookup_insert_eq |]); (split; [apply lookup_delete_eq | reflexivity]).
Qed.

Lemma matchesAmount_case correct sent :
  matchesAmount correct (toLowerCase sent) = matchesAmount correct sent.
Proof. unfold matchesAmount. now rewrite toLowerCase_idempotent. Qed.

Lemma evaluateGuess_case sent boosting user lanternHack s :
  lanternHacks s !! accountName user = Some lanternHack ->
  evaluateGuess env (toLowerCase sent) boosting user respond lanternHack s
  = evaluateGuess env sent boosting user respond lanternHack s.
Proof.
  intros Hhack. unfold evaluateGuess.
  destruct (List.find isCorrect (gameUsers lanternHack)) as [correctUser |]; [| reflexivity].
  rewrite toLowerCase_idempotent.
  destruct (String.eqb (password correctUser) (toLowerCase sent)
            && (triesLeft lanternHack >? 0)); [reflexivity |].
  unfold dbLanternHack_lowerHackTries. rewrite !andThen_emit.
  destruct (faulty env (LowerHackTries _)); [reflexivity |].
  rewrite Hhack. cbn [triesLeft withTriesLeft].
  destruct (_ <=? 0); [reflexivity |].
  now rewrite matchesAmount_case.
Qed.

(** X26.  A guess is read without regard to case: where the validator takes
    the guess and its lower-case form alike, the two do the same. *)
Theorem manipulateStation_ignores_case sent boosting token s :
  isValidData env (toLowerCase sent) boosting = isValidData env sent boosting ->
  manipulateStation env (toLowerCase sent) boosting token respond s
  = manipulateStation env sent boosting token respond s.
Proof.
  intros Hvalid. unfold manipulateStation. rewrite Hvalid.
  destruct (isValidData env sent boosting); cbn [negb]; [| reflexivity].
  unfold authenticator_isUserAllowed. rewrite !andThen_emit.
  destruct (isUserAllowed env token (hackLanternCommand env)) as [e | user]; [reflexivity |].
  unfold dbLanternHack_getLanternHack. rewrite !andThen_emit.
  destruct (faulty env (GetLanternHack (accountName user))); [reflexivity |].
  destruct (lanternHacks s !! accountName user) as [lanternHack |] eqn:Hhack; [| reflexivity].
  now rewrite (evaluateGuess_case _ _ _ _ _ Hhack).
Qed.

(** X27.  The passwords shown are not shuffled once the candidates' passwords
    are added: for a session whose first candidate is the correct one,
    the correct password is shown right after the decoys, at index
    13, or at the size of the decoy pool when that is smaller. *)
Theorem createHackData_shows_correct_password_after_decoys lanternHack s :
  faulty env GetAllFakePasswords = false ->
  firstIsCorrect (gameUsers lanternHack) ->
  (forall passwords, length (shuffleArray env passwords) = length passwords) ->
  exists payload shown correctUser,
    createHackData env lanternHack respond s
      = (s, [Db GetAllFakePasswords; Replied (replyData (JObj payload))])
    /\ lookupField "passwords" payload = Some (JArr shown)
    /\ List.find isCorrect (gameUsers lanternHack) = Some correctUser
    /\ nth_error shown (Nat.min 13 (length (fakePasswords s)))
       = Some (JStr (password correctUser)).
Proof.
  intros Hload Hformed Hshuffle.
  destruct (firstIsCorrect_find _ Hformed) as (first & others & Husers & Hfind).
  unfold createHackData, dbLanternHack_getAllFakePasswords.
  rewrite andThen_emit, Hload, Hfind.
  eexists. eexists. exists first.
  split; [reflexivity |]. split; [reflexivity |]. split; [reflexivity |].
  rewrite List.map_app, nth_error_app2;
    rewrite List.length_map, List.length_firstn, Hshuffle, List.length_map; [| lia].
  rewrite Nat.sub_diag, Husers. reflexivity.
Qed.

End Winning.

(** ** Concrete runs for the further properties *)

Section FurtherRuns.

Import Sample.

Lemma sample_store_keyed signals tries :
  NoDup (List.map fst signals) -> stationsKeyed (store signals tries).
Proof.
  intros Hnodup. apply map_Forall_lookup_2. intros id found Hfound.
  unfold store in Hfound. cbn [stations] in Hfound.
  apply elem_of_list_to_map_2, list_elem_of_In, in_map_iff in Hfound
    as ([key value] & Heq & _).
  cbn [fst snd] in Heq. now injection Heq as <- <-.
Qed.

Lemma sample_store_within_bounds signals tries :
  Forall (fun iv => 50 <= snd iv <= 150) signals -> stationsWithinBounds (store signals tries).
Proof.
  intros Hall. apply map_Forall_lookup_2. intros id found Hfound.
  unfold store in Hfound. cbn [stations] in Hfound.
  apply elem_of_list_to_map_2, list_elem_of_In, in_map_iff in Hfound
    as ([key value] & Heq & Hin).
  cbn [fst snd] in Heq. injection Heq as <- <-. cbn [signalValue station].
  exact (proj1 (List.Forall_forall _ _) Hall _ Hin).
Qed.

Lemma matchesAmount_positional_witness :
  matchesAmount "grape" "GREAT"
  = positionalMatches (list_ascii_of_string (toLowerCase "GREAT"))
                      (list_ascii_of_string "grape").
Proof.
  apply (matchesAmount_positional "grape" "GREAT");
    apply (bool_decide_unpack _); vm_compute; exact I.
Defined.

Lemma resetStations_timers_witness :
  timersSet (snd (resetStations env ignore (store [(1, 107); (2, 93); (3, 100)] 3)))
  = length (List.filter needsReset
              (List.map snd (map_to_list (stations (store [(1, 107); (2, 93); (3, 100)] 3))))).
Proof.
  apply (resetStations_timers env (store [(1, 107); (2, 93); (3, 100)] 3)).
  - intros call. reflexivity.
  - apply sample_store_keyed. apply (bool_decide_unpack _). vm_compute. exact I.
Defined.

Lemma manipulateStation_answers_once_witness :
  let run := manipulateStation env "APPLE" true "bob" respond (store [(1, 107)] 3) in
  replies (snd run)
    = [replyData (JObj [("success", JBool true); ("boostingSignal", JBool true)])]
  /\ List.filter writesSession (dbCalls (snd run)) = [RemoveLanternHack "bob"]
  /\ existsb isUncaught (snd run) = false
  /\ lanternHacks (fst run) !! "bob" = None.
Proof.
  apply (manipulateStation_answers_once env "APPLE" true "bob" (store [(1, 107)] 3)
           {| accountName := "bob" |} (lanternHack 3) (gameUser "ada" "apple" "A" true)
           (station 1 107) 200);
    solve [reflexivity | vm_compute; reflexivity | lia].
Defined.

Lemma binary64_agrees_witness :
  Binary64.ceil (Binary64.steppedSignalValue 107 true)
  = Some (Qceiling (steppedSignalValue 107 true)).
Proof. apply (binary64_agrees 107 true). lia. Defined.

Lemma updateSignalValue_boost_raises_witness :
  exists station',
    stations (fst (updateSignalValue env 1 true respond (store [(1, 107)] 3))) !! 1
      = Some station'
    /\ 107 <= signalValue station' <= Z.min (107 + signalMaxChange) (signalDefault + signalThreshold)
    /\ (107 < signalDefault + signalThreshold -> 107 < signalValue station').
Proof.
  apply (updateSignalValue_boost_raises env 1 (store [(1, 107)] 3) (station 1 107));
    solve [reflexivity | vm_compute; reflexivity | cbn; unfold signalDefault, signalThreshold; lia].
Defined.

Lemma updateSignalValue_cut_lowers_witness :
  exists station',
    stations (fst (updateSignalValue env 1 false respond (store [(1, 54)] 3))) !! 1
      = Some station'
    /\ 54 - signalMaxChange <= signalValue station' <= 54
    /\ Z.min 54 54 <= signalValue station'
    /\ (54 < 54 -> signalValue station' < 54)
    /\ (54 <= 54 -> signalValue station' = 54).
Proof.
  apply (updateSignalValue_cut_lowers env 1 (store [(1, 54)] 3) (station 1 54));
    solve [reflexivity | vm_compute; reflexivity | cbn; unfold signalDefault, signalThreshold; lia].
Defined.

Lemma updateSignalValue_failure_witness :
  let run := updateSignalValue envWriteFails 1 true respond (store [(1, 107)] 3) in
  fst run = store [(1, 107)] 3
  /\ replies (snd run) = [replyError (Database "station")]
  /\ Forall (fun event => match event with HttpPost _ _ _ _ _ => False | _ => True end)
            (snd run).
Proof.
  apply (updateSignalValue_failure envWriteFails 1 true (store [(1, 107)] 3)
           (Database "station")).
  vm_compute. reflexivity.
Defined.

Lemma resetStations_keeps_bounds_witness :
  stationsWithinBounds (fst (resetStations env ignore (store [(1, 150); (2, 50)] 3))).
Proof.
  apply (resetStations_keeps_bounds env (store [(1, 150); (2, 50)] 3)).
  apply sample_store_within_bounds. repeat constructor; cbn; lia.
Defined.

Lemma resetStations_reaches_baseline_witness :
  let after :=
    Nat.iter 7 (fun s => fst (resetStations env ignore s)) (store [(1, 107); (2, 93)] 3) in
  stations after !! 1 = Some (withSignalValue (station 1 107) (decayedBy 7 107))
  /\ (Z.abs (107 - signalDefault) <= Z.of_nat 7 ->
      stations after !! 1 = Some (withSignalValue (station 1 107) signalDefault)).
Proof.
  apply (resetStations_reaches_baseline env (store [(1, 107); (2, 93)] 3) 1 (station 1 107) 7).
  - intros call. reflexivity.
  - apply sample_store_keyed. apply (bool_decide_unpack _). vm_compute. exact I.
  - reflexivity.
Defined.

End FurtherRuns.

Section FurtherRuns2.

Import Sample.

Lemma manipulateStation_keeps_stations_witness :
  stationsKeyed (fst (manipulateStation env "apple" true "bob" respond (store [(1, 107)] 3)))
  /\ stationsWithinBounds
       (fst (manipulateStation env "apple" true "bob" respond (store [(1, 107)] 3))).
Proof.
  apply (manipulateStation_keeps_stations env "apple" true "bob" (store [(1, 107)] 3)).
  - apply sample_store_keyed. apply (bool_decide_unpack _). vm_compute. exact I.
  - apply sample_store_within_bounds. repeat constructor; cbn; lia.
Defined.

Lemma manipulateStation_frame_witness :
  let s' := fst (manipulateStation env "apple" true "bob" respond
                   (store [(1, 107); (2, 93)] 3)) in
  lanternHacks s' !! "carol" = lanternHacks (store [(1, 107); (2, 93)] 3) !! "carol"
  /\ stations s' !! 2 = stations (store [(1, 107); (2, 93)] 3) !! 2
  /\ fakePasswords s' = fakePasswords (store [(1, 107); (2, 93)] 3).
Proof.
  apply (manipulateStation_frame env "apple" true "bob" (store [(1, 107); (2, 93)] 3)
           {| accountName := "bob" |} (lanternHack 3) "carol" 2);
    solve [reflexivity | discriminate].
Defined.

Lemma manipulateStation_session_after_witness :
  exists before,
    lanternHacks (store [(1, 100)] 3) !! "bob" = Some before
    /\ owner (lanternHack 2) = owner before
    /\ hackStationId (lanternHack 2) = hackStationId before
    /\ gameUsers (lanternHack 2) = gameUsers before
    /\ triesLeft before - 1 <= triesLeft (lanternHack 2) <= triesLeft before.
Proof.
  apply (manipulateStation_session_after env "grape" true "bob" (store [(1, 100)] 3) "bob"
           (lanternHack 2)).
  vm_compute. reflexivity.
Defined.

Lemma manipulateStation_keeps_tries_positive_witness : triesLeft (lanternHack 2) > 0.
Proof.
  apply (manipulateStation_keeps_tries_positive env "grape" true "bob" (store [(1, 100)] 3))
    with (name := "bob").
  - intros name. reflexivity.
  - intros name found Hfound. unfold store in Hfound. cbn [lanternHacks] in Hfound.
    apply lookup_singleton_Some in Hfound as [_ <-]. cbn. lia.
  - vm_compute. reflexivity.
Defined.

Lemma manipulateStation_without_session_witness :
  manipulateStation env "apple" true "carol" respond (store [(1, 100)] 3)
  = (store [(1, 100)] 3,
     [IsUserAllowed "carol" "hackLantern"; Db (GetLanternHack "carol");
      Replied (replyError (DoesNotExist "lantern hack"))]).
Proof.
  apply (manipulateStation_without_session env "apple" true "carol" (store [(1, 100)] 3)
           {| accountName := "carol" |}); reflexivity.
Defined.

Lemma manipulateStation_mixed_case_password_witness :
  successBranchTaken
    (snd (manipulateStation env "Apple" true "bob" respond SampleRequest.mixedCaseStore))
  = false.
Proof.
  apply (manipulateStation_mixed_case_password env "Apple" true "bob"
           SampleRequest.mixedCaseStore {| accountName := "bob" |}
           SampleRequest.mixedCaseHack (gameUser "ada" "Apple" "A" true));
    solve [reflexivity | vm_compute; discriminate].
Defined.

Lemma manipulateStation_answers_witness :
  let run := manipulateStation env "APPLE" true "bob" respond (store [(1, 107)] 3) in
  existsb isUncaught (snd run) = false /\ replies (snd run) <> [].
Proof.
  apply (manipulateStation_answers env "APPLE" true "bob" (store [(1, 107)] 3)).
  - intros name found Hfound. unfold store in Hfound. cbn [lanternHacks] in Hfound.
    apply lookup_singleton_Some in Hfound as [_ <-].
    split; [reflexivity | repeat constructor].
  - intros id boost. discriminate.
Defined.

Lemma manipulateStation_whatever_callback_witness :
  fst (manipulateStation env "apple" true "bob" ignore (store [(1, 107)] 3))
  = fst (manipulateStation env "apple" true "bob" respond (store [(1, 107)] 3)).
Proof.
  apply (manipulateStation_whatever_callback env "apple" true "bob" ignore
           (store [(1, 107)] 3)).
  intros reply s'. reflexivity.
Defined.

Lemma manipulateStation_wins_witness :
  let run := manipulateStation env "Apple" false "bob" respond (store [(1, 107)] 3) in
  stations (fst run) !! 1
    = Some (withSignalValue (station 1 107)
              (ceilSignalValue (steppedSignalValue 107 false)))
  /\ lanternHacks (fst run) !! "bob" = None
  /\ hd_error (replies (snd run))
     = Some (replyData (JObj [("success", JBool true); ("boostingSignal", JBool false)])).
Proof.
  apply (manipulateStation_wins env "Apple" false "bob" (store [(1, 107)] 3)
           {| accountName := "bob" |} (lanternHack 3) (gameUser "ada" "apple" "A" true)
           (station 1 107));
    solve [reflexivity | vm_compute; reflexivity | lia].
Defined.

Lemma manipulateStation_ignores_case_witness :
  manipulateStation env (toLowerCase "GrApE") true "bob" respond (store [(1, 100)] 3)
  = manipulateStation env "GrApE" true "bob" respond (store [(1, 100)] 3).
Proof.
  apply (manipulateStation_ignores_case env "GrApE" true "bob" (store [(1, 100)] 3)).
  reflexivity.
Defined.

Lemma createHackData_shows_correct_password_after_decoys_witness :
  exists payload shown correctUser,
    createHackData env (lanternHack 3) respond (store [(1, 100)] 3)
      = (store [(1, 100)] 3, [Db GetAllFakePasswords; Replied (replyData (JObj payload))])
    /\ lookupField "passwords" payload = Some (JArr shown)
    /\ List.find isCorrect (gameUsers (lanternHack 3)) = Some correctUser
    /\ nth_error shown (Nat.min 13 (length (fakePasswords (store [(1, 100)] 3))))
       = Some (JStr (password correctUser)).
Proof.
  apply (createHackData_shows_correct_password_after_decoys env (lanternHack 3)
           (store [(1, 100)] 3)).
  - reflexivity.
  - split; [reflexivity | repeat constructor].
  - intros passwords. apply List.length_rev.
Defined.

End FurtherRuns2.

Section RequestSamples.

Import Sample.

Lemma sample_random_unit draw :
  (0 <= random SampleRequest.hackEnv draw)%Q /\ (random SampleRequest.hackEnv draw < 1)%Q.
Proof. cbn. destruct (Nat.even draw); split; reflexivity || discriminate. Qed.

Lemma sample_shuffle (stored : list StoredGameUser) :
  Permutation (shuffleGameUsers SampleRequest.hackEnv stored) stored.
Proof. symmetry. apply Permutation_rev. Qed.

Lemma sample_pool_passwords :
  Forall (fun gameUser => passwords gameUser <> []) SampleRequest.pool.
Proof. repeat constructor; discriminate. Qed.

Lemma createLanternHack_creates_witness :
  exists candidates,
    let created := {| owner := "bob"; hackStationId := 2;
                      gameUsers := candidates; triesLeft := 3 |} in
    createLanternHack SampleRequest.hackEnv 2 "bob" 3 ignore (store [(1, 100)] 1)
      = ignore (Answered created)
          (setLanternHacks (<["bob" := created]> (lanternHacks (store [(1, 100)] 1)))
             (store [(1, 100)] 1))
    /\ firstIsCorrect candidates
    /\ length candidates = Nat.min 2 (length SampleRequest.pool)
    /\ Forall (fun candidate =>
                 exists gameUser,
                   In gameUser SampleRequest.pool /\ drawnFrom gameUser candidate)
              candidates
    /\ (NoDup (List.map storedUserName SampleRequest.pool)
        -> NoDup (List.map userName candidates)).
Proof.
  apply (createLanternHack_creates SampleRequest.hackEnv sample_random_unit 2 "bob" 3 ignore
           (store [(1, 100)] 1) SampleRequest.pool).
  - reflexivity.
  - discriminate.
  - exact sample_shuffle.
  - exact sample_pool_passwords.
  - reflexivity.
Defined.

Lemma getLanternHack_frame_witness :
  let s' := fst (getLanternHack env SampleRequest.hackEnv 2 "bob" respond
                   (store [(1, 100)] 1)) in
  stations s' = stations (store [(1, 100)] 1)
  /\ fakePasswords s' = fakePasswords (store [(1, 100)] 1)
  /\ lanternHacks s' !! "carol" = lanternHacks (store [(1, 100)] 1) !! "carol".
Proof.
  apply (getLanternHack_frame env SampleRequest.hackEnv 2 "bob" (store [(1, 100)] 1)
           {| accountName := "bob" |} "carol"); solve [reflexivity | discriminate].
Defined.

Lemma getLanternHack_same_station_witness :
  exists payload,
    getLanternHack env SampleRequest.hackEnv 1 "bob" respond (store [(1, 100)] 1)
      = (store [(1, 100)] 1,
         [IsUserAllowed "bob" "hackLantern"; Db (GetLanternHack "bob");
          Db GetAllFakePasswords; Replied (replyData (JObj payload))])
    /\ lookupField "triesLeft" payload = Some (JNum 1)
    /\ lookupField "stationId" payload = Some (JNum 1)
    /\ lookupField "userName" payload = Some (JStr "ada").
Proof.
  apply (getLanternHack_same_station env SampleRequest.hackEnv 1 "bob" (store [(1, 100)] 1)
           {| accountName := "bob" |} (lanternHack 1) (gameUser "ada" "apple" "A" true));
    reflexivity.
Defined.

Lemma getLanternHack_other_station_witness :
  exists first others payload,
    let created := {| owner := "bob"; hackStationId := 2;
                      gameUsers := first :: others; triesLeft := 3 |} in
    let run := getLanternHack env SampleRequest.hackEnv 2 "bob" respond
                 (store [(1, 100)] 1) in
    fst run = setLanternHacks (<["bob" := created]> (lanternHacks (store [(1, 100)] 1)))
                (store [(1, 100)] 1)
    /\ replies (snd run) = [replyData (JObj payload)]
    /\ firstIsCorrect (first :: others)
    /\ lookupField "triesLeft" payload = Some (JNum 3)
    /\ lookupField "stationId" payload = Some (JNum 2)
    /\ lookupField "userName" payload = Some (JStr (userName first)).
Proof.
  apply (getLanternHack_other_station env SampleRequest.hackEnv 2 "bob" (store [(1, 100)] 1)
           {| accountName := "bob" |} (lanternHack 1) SampleRequest.pool).
  - exact sample_random_unit.
  - reflexivity.
  - reflexivity.
  - reflexivity.
  - reflexivity.
  - discriminate.
  - reflexivity.
  - discriminate.
  - exact sample_shuffle.
  - exact sample_pool_passwords.
  - reflexivity.
  - reflexivity.
Defined.

Lemma getLanternHack_keeps_sessions_formed_witness :
  firstIsCorrect (gameUsers SampleRequest.created).
Proof.
  apply (getLanternHack_keeps_sessions_formed env SampleRequest.hackEnv 2 "bob"
           (store [(1, 100)] 1)) with (name := "bob").
  - intros name found Hfound. unfold store in Hfound. cbn [lanternHacks] in Hfound.
    apply lookup_singleton_Some in Hfound as [_ <-].
    split; [reflexivity | repeat constructor].
  - vm_compute. reflexivity.
Defined.

Lemma getLanternHack_station_without_game_users_witness :
  getLanternHack env SampleRequest.hackEnv 5 "bob" respond (store [(1, 100)] 2)
  = (store [(1, 100)] 2,
     [IsUserAllowed "bob" "hackLantern"; Db (GetLanternHack "bob");
      Replied (replyError (DoesNotExist "game users"))]).
Proof.
  apply (getLanternHack_station_without_game_users env SampleRequest.hackEnv 5 "bob"
           (store [(1, 100)] 2) {| accountName := "bob" |} (lanternHack 2));
    solve [reflexivity | discriminate].
Defined.

Lemma getLanternHack_without_session_witness :
  getLanternHack env SampleRequest.hackEnv 2 "carol" respond (store [(1, 100)] 2)
  = (store [(1, 100)] 2,
     [IsUserAllowed "carol" "hackLantern"; Db (GetLanternHack "carol");
      Uncaught "TypeError"]).
Proof.
  apply (getLanternHack_without_session env SampleRequest.hackEnv 2 "carol"
           (store [(1, 100)] 2) {| accountName := "carol" |}); reflexivity.
Defined.

End RequestSamples.
